(** * Master recipe generator: a shallow embedding and its properties

    The development follows [generate_b2mml_master_recipe] of
    "Master Recipe Generator.py": the element tree the function builds is
    embedded as a record of sections (formula, links, steps, transitions,
    recipe elements), before it is serialised.  After it come the two parts
    of Optimization.py that bear on the generator: the link loops of the
    earlier draft of the function, and the cost function of the optimizer,
    whose report selects the solution the generator compiles.

    Conventions of the embedding.
    - A JSON object is a record whose fields are the keys the generator
      reads.  The records describe the files the upstream parsers write, in
      which these keys are present: a string-valued key is a [string] field,
      whether the generator reads it with [d[k]] or with [d.get(k)].  A
      list-valued key that the generator reads with [.get(k, [])] or tests
      for truthiness is a list, the absent key being the empty list.
    - [resources] and [param_mapping] are Python dicts keyed by strings:
      finite maps [gmap string _].
    - Text is ASCII: a [string] is a sequence of one-byte characters.
    - A Python float is a binary64 number, [float].
    - [uuid.uuid4()] and [datetime.now()] are the two outside sources the
      generator draws from; they are variables of the section, indexed by
      the number of draws made before. *)

From Stdlib Require Import Strings.String Strings.Ascii ZArith List Lia.
From Stdlib Require Import DecimalString DecimalNat DecimalZ.
From Stdlib Require Import Floats.PrimFloat.
From stdpp Require Import base option list gmap strings.

Local Open Scope string_scope.
Local Open Scope list_scope.
Local Open Scope nat_scope.

(** ** Text *)

Module Text.

(** [str(n)] of a natural number, as in [f"{n}"]. *)
Definition str_of_nat (n : nat) : string :=
  NilEmpty.string_of_uint (Nat.to_uint n).

(** [str(z)] of an integer. *)
Definition str_of_Z (z : Z) : string :=
  NilZero.string_of_int (Z.to_int z).

(** [n] copies of the character [c]. *)
Fixpoint replicate_char (n : nat) (c : ascii) : string :=
  match n with
  | O => EmptyString
  | S n' => String c (replicate_char n' c)
  end.

(** [f"{n:03d}"]: the decimal digits of [n], padded on the left with zeros
    to a width of at least three. *)
Definition fmt_03d (n : nat) : string :=
  let s := str_of_nat n in
  replicate_char (3 - String.length s) "0"%char +:+ s.

(** [s.startswith(p)]. *)
Definition startswith (s p : string) : bool := String.prefix p s.

(** [s[n:]]. *)
Fixpoint drop_chars (n : nat) (s : string) : string :=
  match n, s with
  | O, _ => s
  | S _, EmptyString => EmptyString
  | S n', String _ s' => drop_chars n' s'
  end.

(** One character of [str.lower()]. *)
Definition lower_char (c : ascii) : ascii :=
  let n := nat_of_ascii c in
  if (65 <=? n) && (n <=? 90) then ascii_of_nat (n + 32) else c.

(** [s.lower()]. *)
Fixpoint lower (s : string) : string :=
  match s with
  | EmptyString => EmptyString
  | String c s' => String (lower_char c) (lower s')
  end.

(** [s.replace(old, '')] for a non-empty [old]: every occurrence of [old],
    found from the left and without overlap, is removed.  [skip] counts the
    characters of an occurrence that are still to be dropped. *)
Fixpoint remove_from (old : string) (skip : nat) (s : string) : string :=
  match s with
  | EmptyString => EmptyString
  | String c s' =>
      match skip with
      | S k => remove_from old k s'
      | O =>
          if String.prefix old s
          then remove_from old (String.length old - 1) s'
          else String c (remove_from old 0 s')
      end
  end.

Definition remove_all (old s : string) : string :=
  match old with
  | EmptyString => s
  | _ => remove_from old 0 s
  end.

(** [s.split('/')[-1]]: what follows the last separator.  [acc] is the
    segment read so far, in reverse. *)
Fixpoint last_segment_from (sep : ascii) (acc : string) (s : string) : string :=
  match s with
  | EmptyString => acc
  | String c s' =>
      if Ascii.eqb c sep
      then last_segment_from sep EmptyString s'
      else last_segment_from sep (acc +:+ String c EmptyString) s'
  end.

Definition last_segment (sep : ascii) (s : string) : string :=
  last_segment_from sep EmptyString s.

(** ['/' in s]. *)
Fixpoint contains_char (c : ascii) (s : string) : bool :=
  match s with
  | EmptyString => false
  | String d s' => Ascii.eqb d c || contains_char c s'
  end.

(** [s.replace(' ', '_')], for single characters. *)
Fixpoint replace_char (old new : ascii) (s : string) : string :=
  match s with
  | EmptyString => EmptyString
  | String c s' =>
      String (if Ascii.eqb c old then new else c) (replace_char old new s')
  end.

(** [x in l] for a list of strings. *)
Fixpoint mem (x : string) (l : list string) : bool :=
  match l with
  | [] => false
  | y :: l' => String.eqb y x || mem x l'
  end.

(** The number a string of decimal digits denotes, leading zeros allowed;
    [None] when a character is not a digit. *)
Definition nat_of_str (s : string) : option nat :=
  option_map Nat.of_uint (NilEmpty.uint_of_string s).

(** What precedes the first colon of a string. *)
Fixpoint before_colon (s : string) : string :=
  match s with
  | EmptyString => EmptyString
  | String c s' =>
      if Ascii.eqb c ":" then EmptyString else String c (before_colon s')
  end.

(** The ordinal of an identifier of the form [<ordinal>:<reference>]. *)
Definition ordinal_of (id : string) : option nat :=
  nat_of_str (before_colon id).

(** Truth value of a Python string. *)
Definition truthy (s : string) : bool :=
  match s with
  | EmptyString => false
  | _ => true
  end.

(** Truth value of a string or [None]. *)
Definition truthy_opt (o : option string) : bool :=
  match o with
  | None => false
  | Some s => truthy s
  end.

End Text.

(** ** Input records *)

(** An entry of [pe['Parameters']]. *)
Record RecipeParameter := {
  param_ID : string;
  param_Description : string;
  param_Key : string;
  param_UnitOfMeasure : string;
  param_DataType : string;
  param_ValueString : string
}.

(** An entry of [general_recipe['ProcessElements']]. *)
Record ProcessElement := {
  pe_ID : string;
  pe_Description : string;
  pe_Parameters : list RecipeParameter
}.

Record GeneralRecipe := {
  gr_ID : string;
  gr_ProcessElements : list ProcessElement
}.

(** An entry of [capability_detail['matched_properties']]. *)
Record MatchedProperty := {
  mp_property_id : string;
  mp_property_name : string;
  mp_property_unit : string
}.

(** An entry of [assignment['capability_details']]. *)
Record CapabilityDetail := {
  cd_capability_name : string;
  cd_matched_properties : list MatchedProperty
}.

(** An entry of [solution['assignments']]. *)
Record Assignment := {
  a_step_id : string;
  a_resource : string;
  a_capabilities : list string;
  a_capability_details : list CapabilityDetail
}.

(** An entry of [solutions['solutions']]. *)
Record Solution := {
  sol_solution_id : Z;
  sol_assignments : list Assignment
}.

(** An entry of [capability_data['capability']]. *)
Record Capability := {
  cap_capability_name : string
}.

(** An entry of [capability_data['properties']]. *)
Record ResourceProperty := {
  rp_property_name : string;
  rp_propertyRealizedBy : string
}.

(** An entry of [resources[resource_name]]. *)
Record CapabilityData := {
  cdata_capability : list Capability;
  cdata_properties : list ResourceProperty;
  cdata_realized_by : list string
}.

(** [resources]: resource name to capability records. *)
Abbreviation Resources := (gmap string (list CapabilityData)).

(** ** Property resolution: [find_property_realized_by] *)

Module Resolver.

(** The loop over [capability_data['capability']] that sets [cap_match]. *)
Fixpoint cap_match (caps : list Capability) (capability_name : string) : bool :=
  match caps with
  | [] => false
  | cap :: caps' =>
      if String.eqb (cap_capability_name cap) capability_name then true
      else cap_match caps' capability_name
  end.

(** First loop over the properties: [prop.get('property_name') == property_name]. *)
Fixpoint search_exact (props : list ResourceProperty) (property_name : string)
  : option string :=
  match props with
  | [] => None
  | prop :: props' =>
      if String.eqb (rp_property_name prop) property_name
      then Some (rp_propertyRealizedBy prop)
      else search_exact props' property_name
  end.

(** Second loop over the properties: the names are compared in lower case. *)
Fixpoint search_lower (props : list ResourceProperty) (property_name : string)
  : option string :=
  match props with
  | [] => None
  | prop :: props' =>
      if String.eqb (Text.lower (rp_property_name prop)) (Text.lower property_name)
      then Some (rp_propertyRealizedBy prop)
      else search_lower props' property_name
  end.

(** The loop over [resources[resource_name]]. *)
Fixpoint scan_records (records : list CapabilityData)
    (capability_name property_name : string) : option string :=
  match records with
  | [] => None
  | capability_data :: records' =>
      if negb (cap_match (cdata_capability capability_data) capability_name)
      then scan_records records' capability_name property_name
      else
        match search_exact (cdata_properties capability_data) property_name with
        | Some r => Some r
        | None =>
            match search_lower (cdata_properties capability_data) property_name with
            | Some r => Some r
            | None => scan_records records' capability_name property_name
            end
        end
  end.

(** [None] is Python's [None]. *)
Definition find_property_realized_by (resources : Resources)
    (resource_name capability_name property_name : string) : option string :=
  match resources !! resource_name with
  | None => None
  | Some records => scan_records records capability_name property_name
  end.




End Resolver.

(** ** The compiled document *)

(** A [b2mml:Parameter] of the [b2mml:Formula]. *)
Record FormulaParameter := {
  fp_ID : string;
  fp_Description : string;
  fp_ParameterType : string;
  fp_ParameterSubType : string;
  fp_ValueString : string;
  fp_DataInterpretation : string;
  fp_DataType : string;
  fp_UnitOfMeasure : string
}.

(** An entry of the list [steps]; the keys read after the list is built. *)
Record Step := {
  step_id : string;
  step_recipe_element_id : string;
  step_description : string
}.

(** A [b2mml:Link]. *)
Record Link := {
  link_ID : string;
  link_FromIDValue : string;
  link_FromType : string;
  link_ToIDValue : string;
  link_ToType : string;
  link_LinkType : string;
  link_Depiction : string;
  link_EvaluationOrder : string;
  link_Description : string
}.

(** A [b2mml:Transition]. *)
Record Transition := {
  trans_ID : string;
  trans_Condition : string
}.

(** A [b2mml:RecipeElement]; the markers Init and End carry an identifier and
    a type only. *)
Record RecipeElement := {
  re_ID : string;
  re_RecipeElementType : string;
  re_Description : option string;
  re_ActualEquipmentID : option string;
  re_EquipmentRequirement : option string;
  re_Parameters : list string
}.

(** The element tree under [b2mml:BatchInformation]. *)
Record Document := {
  doc_ListHeader_ID : string;
  doc_CreateDate : string;
  doc_Description : string;
  doc_MasterRecipe_ID : string;
  doc_Version : string;
  doc_VersionDate : string;
  doc_MasterRecipe_Description : string;
  doc_ProductID : string;
  doc_ProductName : string;
  doc_EquipmentRequirement_ID : string;
  doc_Constraint_ID : string;
  doc_Constraint_Condition : string;
  doc_EquipmentRequirement_Description : string;
  doc_Formula : list FormulaParameter;
  doc_Links : list Link;
  doc_Steps : list Step;
  doc_Transitions : list Transition;
  doc_RecipeElements : list RecipeElement
}.

(** ** Exceptions *)

Inductive exn :=
| ValueError (msg : string)
| IndexError.

Inductive result (A : Type) :=
| Ok (a : A)
| Raise (e : exn).
Arguments Ok {A} a.
Arguments Raise {A} e.

#[global] Instance result_ret : MRet result := fun A a => Ok a.

#[global] Instance result_bind : MBind result := fun A B k r =>
  match r with
  | Ok a => k a
  | Raise e => Raise e
  end.

(** [l[i]]. *)
Definition index {A} (l : list A) (i : nat) : result A :=
  match l !! i with
  | Some a => Ok a
  | None => Raise IndexError
  end.

(** ** The generator: [generate_b2mml_master_recipe] *)

Module Generator.

Import Text Resolver.

(** The loop that looks [optimal_solution_id] up in [solutions['solutions']]. *)
Fixpoint find_solution (solutions : list Solution) (optimal_solution_id : Z)
  : option Solution :=
  match solutions with
  | [] => None
  | solution :: solutions' =>
      if Z.eqb (sol_solution_id solution) optimal_solution_id then Some solution
      else find_solution solutions' optimal_solution_id
  end.

(** The loop that looks the assignment of a process element up; it is run
    once in each of the three passes. *)
Fixpoint find_assignment (assignments : list Assignment) (id : string)
  : option Assignment :=
  match assignments with
  | [] => None
  | a :: assignments' =>
      if String.eqb (a_step_id a) id then Some a
      else find_assignment assignments' id
  end.

Definition map_data_type (json_type : string) : string :=
  if String.eqb json_type "xs:int" then "integer"
  else if String.eqb json_type "xs:double" then "double"
  else if String.eqb json_type "int" then "integer"
  else if String.eqb json_type "double" then "double"
  else if String.eqb json_type "duration" then "duration"
  else json_type.

Definition map_unit (unit_uri : string) : string :=
  if String.eqb unit_uri "http://si-digital-framework.org/SI/units/second"
  then "Sekunde"
  else if String.eqb unit_uri "http://si-digital-framework.org/SI/units/litre"
  then "Liter"
  else if String.eqb unit_uri "http://si-digital-framework.org/SI/units/degreeCelsius"
  then "Grad Celsius"
  else if String.eqb unit_uri "http://qudt.org/vocab/unit/REV-PER-MIN"
  then "Umdrehungen pro Minute"
  else if String.eqb unit_uri "http://qudt.org/vocab/unit/PERCENT"
  then "Prozent"
  else if String.eqb unit_uri "http://qudt.org/vocab/unit/CYC-PER-SEC"
  then "Zyklen pro Sekunde"
  else if contains_char "/" unit_uri then last_segment "/" unit_uri
  else unit_uri.

(** [assignment['resource'].replace('resource: ', '').replace('2025-04_', '')]. *)
Definition resource_short (a : Assignment) : string :=
  remove_all "2025-04_" (remove_all "resource: " (a_resource a)).

(** The value string without a leading [>=] or [<=]. *)
Definition normalize_value (value_str : string) : string :=
  if startswith value_str ">=" || startswith value_str "<="
  then drop_chars 2 value_str
  else value_str.

Section Passes.

Variable resources : Resources.

(** *** Formula pass *)

(** The inner loop over [matched_properties]: the first property whose id and
    unit are the parameter's key and unit sets [param_id] and ends the loop. *)
Fixpoint match_properties (a : Assignment) (capability_detail : CapabilityDetail)
    (matched : list MatchedProperty) (param : RecipeParameter)
    (param_id : option string) : option string :=
  match matched with
  | [] => param_id
  | matched_prop :: matched' =>
      if String.eqb (mp_property_id matched_prop) (param_Key param)
         && String.eqb (mp_property_unit matched_prop) (param_UnitOfMeasure param)
      then find_property_realized_by resources (a_resource a)
             (cd_capability_name capability_detail) (mp_property_name matched_prop)
      else match_properties a capability_detail matched' param param_id
  end.

(** The outer loop over [capability_details]; it ends as soon as [param_id]
    is true. *)
Fixpoint match_details (a : Assignment) (details : list CapabilityDetail)
    (param : RecipeParameter) (param_id : option string) : option string :=
  match details with
  | [] => param_id
  | capability_detail :: details' =>
      let param_id' :=
        match_properties a capability_detail
          (cd_matched_properties capability_detail) param param_id in
      if truthy_opt param_id' then param_id'
      else match_details a details' param param_id'
  end.

(** The branch taken for the parameter Dosing_Amount001 of Dosing001. *)
Definition dosing_param_id (a : Assignment) : option string :=
  find_property_realized_by resources (a_resource a) "Dosing" "Litre".

Definition is_dosing (pe : ProcessElement) (param : RecipeParameter) : bool :=
  String.eqb (pe_ID pe) "Dosing001" && String.eqb (param_ID param) "Dosing_Amount001".

(** [param_id] before the test [if not param_id]. *)
Definition resolve_param_id (pe : ProcessElement) (a : Assignment)
    (param : RecipeParameter) : option string :=
  if is_dosing pe param then dosing_param_id a
  else match_details a (a_capability_details a) param None.

(** [param_id] after it. *)
Definition param_id_or_null (param_id : option string) : string :=
  match param_id with
  | Some s => if truthy s then s else "null"
  | None => "null"
  end.

Definition formatted_param_id (counter : nat) (pe : ProcessElement)
    (a : Assignment) (param : RecipeParameter) : string :=
  fmt_03d counter +:+ ":" +:+ param_id_or_null (resolve_param_id pe a param).

Definition formula_parameter (counter : nat) (pe : ProcessElement)
    (a : Assignment) (param : RecipeParameter) : FormulaParameter :=
  {| fp_ID := formatted_param_id counter pe a param;
     fp_Description :=
       resource_short a +:+ "_" +:+ replace_char " " "_" (param_Description param);
     fp_ParameterType := "ProcessParameter";
     fp_ParameterSubType := "ST";
     fp_ValueString := normalize_value (param_ValueString param);
     fp_DataInterpretation := "Constant";
     fp_DataType := map_data_type (param_DataType param);
     fp_UnitOfMeasure := map_unit (param_UnitOfMeasure param) |}.

(** What the formula pass carries from one parameter to the next. *)
Record ParamState := {
  param_mapping : gmap string string;
  global_param_counter : nat;
  formula : list FormulaParameter
}.

Definition initial_param_state : ParamState :=
  {| param_mapping := ∅; global_param_counter := 1; formula := [] |}.

(** Body of [for param in pe['Parameters']]. *)
Definition process_parameter (pe : ProcessElement) (a : Assignment)
    (st : ParamState) (param : RecipeParameter) : ParamState :=
  let c := global_param_counter st in
  {| param_mapping :=
       <[param_ID param := formatted_param_id c pe a param]> (param_mapping st);
     global_param_counter := c + 1;
     formula := formula st ++ [formula_parameter c pe a param] |}.

(** Body of the first [for pe in general_recipe['ProcessElements']]. *)
Definition process_element (assignments : list Assignment)
    (st : ParamState) (pe : ProcessElement) : ParamState :=
  match find_assignment assignments (pe_ID pe) with
  | None => st
  | Some a => fold_left (process_parameter pe a) (pe_Parameters pe) st
  end.

Definition formula_pass (assignments : list Assignment)
    (process_elements : list ProcessElement) : ParamState :=
  fold_left (process_element assignments) process_elements initial_param_state.

(** *** Step pass *)

Variable uuid4 : nat -> string.

(** The keys the step pass stores on a process element. *)
Record Annotation := {
  ann_recipe_element_id : string;
  ann_recipe_element_number : nat;
  ann_capability_name : string
}.

(** The loop that picks the first true [capability_name] of the details. *)
Fixpoint first_capability_name (details : list CapabilityDetail)
    (capability_name : string) : string :=
  match details with
  | [] => capability_name
  | cap_detail :: details' =>
      if truthy (cd_capability_name cap_detail) then cd_capability_name cap_detail
      else first_capability_name details' capability_name
  end.

(** The loop that sets [capabilities_matched]. *)
Fixpoint capabilities_matched (caps : list Capability) (capabilities : list string)
  : bool :=
  match caps with
  | [] => false
  | cap :: caps' =>
      if mem (cap_capability_name cap) capabilities then true
      else capabilities_matched caps' capabilities
  end.

(** The loop over [resources[assignment['resource']]] that looks for a
    capability record with a [realized_by]. *)
Fixpoint realized_recipe_element_id (records : list CapabilityData)
    (a : Assignment) (recipe_element_counter : nat) : option string :=
  match records with
  | [] => None
  | capability_data :: records' =>
      if capabilities_matched (cdata_capability capability_data) (a_capabilities a)
      then
        match cdata_realized_by capability_data with
        | r :: _ => Some (fmt_03d recipe_element_counter +:+ ":" +:+ r)
        | [] => realized_recipe_element_id records' a recipe_element_counter
        end
      else realized_recipe_element_id records' a recipe_element_counter
  end.

(** [recipe_element_id] before the test [if not recipe_element_id]. *)
Definition lookup_recipe_element_id (a : Assignment)
    (recipe_element_counter : nat) : option string :=
  match resources !! a_resource a with
  | None => None
  | Some records => realized_recipe_element_id records a recipe_element_counter
  end.

(** [recipe_element_id] after it: when no [realized_by] was found a token is
    drawn from [uuid4].  The second component counts the draws made. *)
Definition issue_recipe_element_id (a : Assignment)
    (recipe_element_counter draws : nat) : string * nat :=
  match lookup_recipe_element_id a recipe_element_counter with
  | Some id => (id, draws)
  | None => (fmt_03d recipe_element_counter +:+ ":" +:+ uuid4 draws, draws + 1)
  end.

Definition step_description_of (recipe_element_counter : nat) (a : Assignment)
    (pe : ProcessElement) (capability_name : string) : string :=
  fmt_03d recipe_element_counter +:+ ":" +:+ resource_short a +:+ "_"
    +:+ pe_Description pe +:+ ":" +:+ capability_name.

(** What the step pass carries from one process element to the next.
    [annotated] lists the process elements visited so far, each with the keys
    stored on it, if any. *)
Record StepState := {
  steps : list Step;
  step_counter : nat;
  recipe_element_counter : nat;
  annotated : list (ProcessElement * option Annotation);
  uuid_draws : nat;
  warnings : list string
}.

Definition init_step : Step :=
  {| step_id := "S1"; step_recipe_element_id := "Init"; step_description := "Init" |}.

Definition initial_step_state : StepState :=
  {| steps := [init_step];
     step_counter := 2;
     recipe_element_counter := 1;
     annotated := [];
     uuid_draws := 0;
     warnings := [] |}.

(** Body of the second [for pe in general_recipe['ProcessElements']]. *)
Definition add_step (assignments : list Assignment)
    (st : StepState) (pe : ProcessElement) : StepState :=
  let sid := "S" +:+ str_of_nat (step_counter st) in
  match find_assignment assignments (pe_ID pe) with
  | None =>
      {| steps := steps st;
         step_counter := step_counter st;
         recipe_element_counter := recipe_element_counter st;
         annotated := annotated st ++ [(pe, None)];
         uuid_draws := uuid_draws st;
         warnings := warnings st ++
           ["Warning: No assignment found for process element " +:+ pe_ID pe] |}
  | Some a =>
      let n := recipe_element_counter st in
      let capability_name := first_capability_name (a_capability_details a) "Unknown" in
      let (recipe_element_id, draws) := issue_recipe_element_id a n (uuid_draws st) in
      {| steps := steps st ++
           [{| step_id := sid;
               step_recipe_element_id := recipe_element_id;
               step_description := step_description_of n a pe capability_name |}];
         step_counter := step_counter st + 1;
         recipe_element_counter := n + 1;
         annotated := annotated st ++
           [(pe, Some {| ann_recipe_element_id := recipe_element_id;
                         ann_recipe_element_number := n;
                         ann_capability_name := capability_name |})];
         uuid_draws := draws;
         warnings := warnings st |}
  end.

Definition end_step (step_counter : nat) : Step :=
  {| step_id := "S" +:+ str_of_nat step_counter;
     step_recipe_element_id := "End";
     step_description := "End" |}.

Definition step_pass (assignments : list Assignment)
    (process_elements : list ProcessElement) : StepState :=
  fold_left (add_step assignments) process_elements initial_step_state.

(** The list [steps] once the End step is appended. *)
Definition all_steps (st : StepState) : list Step :=
  steps st ++ [end_step (step_counter st)].

(** *** Links *)

Definition step_to_transition (link_counter : nat) (s : Step) (i : nat) : Link :=
  {| link_ID := "L" +:+ str_of_nat link_counter;
     link_FromIDValue := step_id s;
     link_FromType := "Step";
     link_ToIDValue := "T" +:+ str_of_nat (i + 1);
     link_ToType := "Transition";
     link_LinkType := "ControlLink";
     link_Depiction := "LineAndArrow";
     link_EvaluationOrder := "1";
     link_Description := "string" |}.

Definition transition_to_step (link_counter : nat) (i : nat) (s : Step) : Link :=
  {| link_ID := "L" +:+ str_of_nat link_counter;
     link_FromIDValue := "T" +:+ str_of_nat (i + 1);
     link_FromType := "Transition";
     link_ToIDValue := step_id s;
     link_ToType := "Step";
     link_LinkType := "ControlLink";
     link_Depiction := "LineAndArrow";
     link_EvaluationOrder := "1";
     link_Description := "string" |}.

(** [for i in range(len(steps) - 1)], over the indices [indices]; each turn
    emits two links and advances [link_counter] twice. *)
Fixpoint make_links (steps : list Step) (indices : list nat) (link_counter : nat)
  : result (list Link) :=
  match indices with
  | [] => mret []
  | i :: indices' =>
      s ← index steps i;
      let l1 := step_to_transition link_counter s i in
      s' ← index steps (i + 1);
      let l2 := transition_to_step (link_counter + 1) i s' in
      links ← make_links steps indices' (link_counter + 1 + 1);
      mret (l1 :: l2 :: links)
  end.

Definition links_of (steps : list Step) : result (list Link) :=
  make_links steps (seq 0 (length steps - 1)) 1.

(** *** Transitions *)

(** Body of [for i in range(1, len(steps))]. *)
Definition make_transition (steps : list Step) (i : nat) : result Transition :=
  if Nat.eqb i 1 then
    mret {| trans_ID := "T" +:+ str_of_nat i; trans_Condition := "True" |}
  else if Nat.eqb i (length steps - 1) then
    s ← index steps (i - 1);
    mret {| trans_ID := "T" +:+ str_of_nat i;
            trans_Condition := "Step " +:+ step_description s +:+ " is Completed" |}
  else
    s ← index steps (i - 1);
    mret {| trans_ID := "T" +:+ str_of_nat i;
            trans_Condition := "Step " +:+ step_description s +:+ " is Completed" |}.

Fixpoint make_transitions (steps : list Step) (indices : list nat)
  : result (list Transition) :=
  match indices with
  | [] => mret []
  | i :: indices' =>
      t ← make_transition steps i;
      ts ← make_transitions steps indices';
      mret (t :: ts)
  end.

Definition transitions_of (steps : list Step) : result (list Transition) :=
  make_transitions steps (seq 1 (length steps - 1)).

(** *** Recipe elements *)

(** [[pe for pe in ... if 'recipe_element_number' in pe]]. *)
Fixpoint numbered (annotated : list (ProcessElement * option Annotation))
  : list (ProcessElement * Annotation) :=
  match annotated with
  | [] => []
  | (pe, Some ann) :: annotated' => (pe, ann) :: numbered annotated'
  | (_, None) :: annotated' => numbered annotated'
  end.

(** [sorted(..., key=lambda x: x['recipe_element_number'])]: a stable sort,
    here by insertion. *)
Fixpoint insert_by_number (x : ProcessElement * Annotation)
    (l : list (ProcessElement * Annotation)) : list (ProcessElement * Annotation) :=
  match l with
  | [] => [x]
  | y :: l' =>
      if ann_recipe_element_number (snd x) <=? ann_recipe_element_number (snd y)
      then x :: y :: l'
      else y :: insert_by_number x l'
  end.

Definition sort_by_number (l : list (ProcessElement * Annotation))
  : list (ProcessElement * Annotation) :=
  foldr insert_by_number [] l.

Definition pe_short (description : string) : string :=
  if String.eqb description "Mixing_of_Liquids" then "Mixing"
  else if String.eqb description "Dosing" then "Dosing"
  else if String.eqb description "Heating_of_liquids" then "Heating"
  else description.

(** The loop that adds the parameter references of one recipe element. *)
Fixpoint parameter_refs (mapping : gmap string string)
    (params : list RecipeParameter) : list string :=
  match params with
  | [] => []
  | param :: params' =>
      match mapping !! param_ID param with
      | Some id => id :: parameter_refs mapping params'
      | None => parameter_refs mapping params'
      end
  end.

Definition operation_element (mapping : gmap string string) (a : Assignment)
    (pe : ProcessElement) (ann : Annotation) : RecipeElement :=
  {| re_ID := ann_recipe_element_id ann;
     re_RecipeElementType := "Operation";
     re_Description :=
       Some (resource_short a +:+ "_" +:+ pe_short (pe_Description pe)
               +:+ "_Procedure:" +:+ ann_capability_name ann);
     re_ActualEquipmentID := Some (resource_short a +:+ "Instance");
     re_EquipmentRequirement := Some "Equipment Requirement for the HCs";
     re_Parameters := parameter_refs mapping (pe_Parameters pe) |}.

(** [for pe in recipe_elements_sorted]. *)
Fixpoint operation_elements (mapping : gmap string string)
    (assignments : list Assignment) (sorted : list (ProcessElement * Annotation))
  : list RecipeElement :=
  match sorted with
  | [] => []
  | (pe, ann) :: sorted' =>
      match find_assignment assignments (pe_ID pe) with
      | None => operation_elements mapping assignments sorted'
      | Some a =>
          operation_element mapping a pe ann
            :: operation_elements mapping assignments sorted'
      end
  end.

Definition marker (elem_type elem_id : string) : RecipeElement :=
  {| re_ID := elem_id;
     re_RecipeElementType := elem_type;
     re_Description := None;
     re_ActualEquipmentID := None;
     re_EquipmentRequirement := None;
     re_Parameters := [] |}.

Definition recipe_elements_of (mapping : gmap string string)
    (assignments : list Assignment)
    (annotated : list (ProcessElement * option Annotation)) : list RecipeElement :=
  [marker "Begin" "Init"; marker "End" "End"]
    ++ operation_elements mapping assignments (sort_by_number (numbered annotated)).

(** *** The whole function *)

Variable now : nat -> string.

Definition not_found_message (optimal_solution_id : Z) : string :=
  "Optimal solution " +:+ str_of_Z optimal_solution_id
    +:+ " not found in solutions.json".

(** The function returns the document together with the identifier of the
    solution it was compiled from; the third component of the Python result,
    [optimization['optimal_solution']], is its argument handed back and is
    left out.  The document is the element tree, before [ET.tostring] and
    [minidom] turn it into text. *)
Definition generate_b2mml_master_recipe (solutions : list Solution)
    (optimal_solution_id : Z) (general_recipe : GeneralRecipe)
  : result (Document * Z) :=
  match find_solution solutions optimal_solution_id with
  | None => Raise (ValueError (not_found_message optimal_solution_id))
  | Some optimal_solution =>
      let assignments := sol_assignments optimal_solution in
      let process_elements := gr_ProcessElements general_recipe in
      let ps := formula_pass assignments process_elements in
      let ss := step_pass assignments process_elements in
      let steps := all_steps ss in
      links ← links_of steps;
      transitions ← transitions_of steps;
      mret
        ({| doc_ListHeader_ID := "ListHeadID";
            doc_CreateDate := now 0 +:+ "+01:00";
            doc_Description :=
              "This Batch Information includes the Master Recipe based on General Recipe "
                +:+ gr_ID general_recipe +:+ " and Optimal Solution "
                +:+ str_of_Z optimal_solution_id;
            doc_MasterRecipe_ID := "MasterRecipe_" +:+ str_of_Z optimal_solution_id;
            doc_Version := "1.0.0";
            doc_VersionDate := now 1 +:+ "+01:00";
            doc_MasterRecipe_Description :=
              "Master recipe based on General Recipe " +:+ gr_ID general_recipe
                +:+ " and optimized solution " +:+ str_of_Z optimal_solution_id
                +:+ " using resources from optimization";
            doc_ProductID := "StirredHeatedWater";
            doc_ProductName := "Stirred and Heated Water";
            doc_EquipmentRequirement_ID := "Equipment Requirement for the HCs";
            doc_Constraint_ID := "Material constraint";
            doc_Constraint_Condition := "Material == H2O";
            doc_EquipmentRequirement_Description :=
              "Only water is allowed for the stirring and heating process";
            doc_Formula := formula ps;
            doc_Links := links;
            doc_Steps := steps;
            doc_Transitions := transitions;
            doc_RecipeElements :=
              recipe_elements_of (param_mapping ps) assignments (annotated ss) |},
         optimal_solution_id)
  end.

End Passes.

(** *** Views of the input used to state the properties *)

(** The process elements for which the solution has an assignment, each with
    the assignment the loops find for it, in recipe order. *)
Fixpoint assigned (assignments : list Assignment)
    (process_elements : list ProcessElement) : list (ProcessElement * Assignment) :=
  match process_elements with
  | [] => []
  | pe :: process_elements' =>
      match find_assignment assignments (pe_ID pe) with
      | Some a => (pe, a) :: assigned assignments process_elements'
      | None => assigned assignments process_elements'
      end
  end.

(** The parameters of one assigned process element. *)
Definition params_of (x : ProcessElement * Assignment)
  : list (ProcessElement * Assignment * RecipeParameter) :=
  map (fun param => (x.1, x.2, param)) (pe_Parameters x.1).

(** The parameters of a list of assigned process elements, in
    process-element-then-parameter order. *)
Definition all_params (els : list (ProcessElement * Assignment))
  : list (ProcessElement * Assignment * RecipeParameter) :=
  flat_map params_of els.

(** The solution has an assignment whose [step_id] is the identifier of the
    process element. *)
Definition has_assignment (assignments : list Assignment) (pe : ProcessElement)
  : bool :=
  existsb (fun a => String.eqb (a_step_id a) (pe_ID pe)) assignments.

(** One turn of the inner loop of the formula pass, on a parameter paired
    with its process element and assignment. *)
Definition alloc (resources : Resources) (st : ParamState)
    (x : ProcessElement * Assignment * RecipeParameter) : ParamState :=
  process_parameter resources x.1.1 x.1.2 st x.2.

(** The identifier of the parameter in the recipe. *)
Definition pid (x : ProcessElement * Assignment * RecipeParameter) : string :=
  param_ID x.2.

(** The identifier formatted for it when the counter is [c], and the formula
    entry that carries it. *)
Definition fid (resources : Resources) (c : nat)
    (x : ProcessElement * Assignment * RecipeParameter) : string :=
  formatted_param_id resources c x.1.1 x.1.2 x.2.

Definition entry (resources : Resources) (c : nat)
    (x : ProcessElement * Assignment * RecipeParameter) : FormulaParameter :=
  formula_parameter resources c x.1.1 x.1.2 x.2.

(** The keys the step pass stores on the assigned process elements, in
    recipe order, when it reaches them with [recipe_element_counter = n] and
    after [d] draws from [uuid4]. *)
Fixpoint issue_all (resources : Resources) (uuid4 : nat -> string) (n d : nat)
    (els : list (ProcessElement * Assignment))
  : list (ProcessElement * Assignment * Annotation) :=
  match els with
  | [] => []
  | (pe, a) :: els' =>
      let r := issue_recipe_element_id resources uuid4 a n d in
      (pe, a,
       {| ann_recipe_element_id := r.1;
          ann_recipe_element_number := n;
          ann_capability_name :=
            first_capability_name (a_capability_details a) "Unknown" |})
        :: issue_all resources uuid4 (n + 1) r.2 els'
  end.

(** The step appended for an assigned process element when
    [step_counter = k]. *)
Definition operation_step (k : nat) (x : ProcessElement * Assignment * Annotation)
  : Step :=
  {| step_id := "S" +:+ str_of_nat k;
     step_recipe_element_id := ann_recipe_element_id x.2;
     step_description :=
       step_description_of (ann_recipe_element_number x.2) x.1.2 x.1.1
         (ann_capability_name x.2) |}.

(** The realized-by reference of an assignment: the first [realized_by]
    entry of the first capability record of its resource that names one of
    the assignment's capabilities and has such entries. *)
Fixpoint first_realized_by (records : list CapabilityData) (a : Assignment)
  : option string :=
  match records with
  | [] => None
  | capability_data :: records' =>
      if capabilities_matched (cdata_capability capability_data) (a_capabilities a)
      then
        match cdata_realized_by capability_data with
        | r :: _ => Some r
        | [] => first_realized_by records' a
        end
      else first_realized_by records' a
  end.

Definition realized_by_reference (resources : Resources) (a : Assignment)
  : option string :=
  match resources !! a_resource a with
  | None => None
  | Some records => first_realized_by records a
  end.

(** How many of the elements have no realized-by reference, and so draw a
    token. *)
Fixpoint fallbacks (resources : Resources)
    (els : list (ProcessElement * Assignment)) : nat :=
  match els with
  | [] => 0
  | (_, a) :: els' =>
      match realized_by_reference resources a with
      | Some _ => fallbacks resources els'
      | None => 1 + fallbacks resources els'
      end
  end.


(** The recipe elements of type Operation. *)
Definition operations (doc : Document) : list RecipeElement :=
  List.filter (fun re => String.eqb (re_RecipeElementType re) "Operation")
              (doc_RecipeElements doc).


End Generator.

(** ** Scenarios

    Concrete inputs on which the properties below are exercised. *)

Module Scenarios.

Definition celsius : string :=
  "http://si-digital-framework.org/SI/units/degreeCelsius".
Definition litre : string := "http://si-digital-framework.org/SI/units/litre".
Definition rpm : string := "http://qudt.org/vocab/unit/REV-PER-MIN".

(** The two outside sources, made deterministic. *)
Definition tokens (n : nat) : string := "token-" +:+ Text.str_of_nat n.
Definition clock (n : nat) : string := "2025-06-01T12:00:00.000000".

(** *** A recipe with the single process element Heating *)

Definition heating_temperature : RecipeParameter :=
  {| param_ID := "Heating_Temp001";
     param_Description := "Target Temperature";
     param_Key := "Temp";
     param_UnitOfMeasure := celsius;
     param_DataType := "xs:double";
     param_ValueString := ">=60" |}.

Definition heating : ProcessElement :=
  {| pe_ID := "Heating001";
     pe_Description := "Heating";
     pe_Parameters := [heating_temperature] |}.

Definition heating_recipe : GeneralRecipe :=
  {| gr_ID := "GeneralRecipe001"; gr_ProcessElements := [heating] |}.

Definition heating_assignment : Assignment :=
  {| a_step_id := "Heating001";
     a_resource := "resource: 2025-04_HC29";
     a_capabilities := ["Heating"];
     a_capability_details :=
       [{| cd_capability_name := "Heating";
           cd_matched_properties :=
             [{| mp_property_id := "Temp";
                 mp_property_name := "temperature";
                 mp_property_unit := celsius |}] |}] |}.

Definition heating_solution : Solution :=
  {| sol_solution_id := 4; sol_assignments := [heating_assignment] |}.

Definition hc29 : list CapabilityData :=
  [{| cdata_capability := [{| cap_capability_name := "Heating" |}];
      cdata_properties :=
        [{| rp_property_name := "Temperature";
            rp_propertyRealizedBy := "hc29_temperature_setpoint" |}];
      cdata_realized_by := ["hc29_heating_service"] |}].

(** *** A recipe of three process elements: mixing, dosing, heating *)

Definition mixing : ProcessElement :=
  {| pe_ID := "Mixing_of_Liquids001";
     pe_Description := "Mixing_of_Liquids";
     pe_Parameters :=
       [{| param_ID := "Revolutions_per_minute001";
           param_Description := "Revolutions per minute";
           param_Key := "Speed";
           param_UnitOfMeasure := rpm;
           param_DataType := "xs:int";
           param_ValueString := "<=200" |};
        {| param_ID := "Mixing_Duration001";
           param_Description := "Duration";
           param_Key := "Duration";
           param_UnitOfMeasure := "http://si-digital-framework.org/SI/units/second";
           param_DataType := "duration";
           param_ValueString := "30" |}] |}.

Definition dosing_amount : RecipeParameter :=
  {| param_ID := "Dosing_Amount001";
     param_Description := "Dosing Amount";
     param_Key := "Amount";
     param_UnitOfMeasure := litre;
     param_DataType := "xs:double";
     param_ValueString := "<=5.5" |}.

Definition dosing : ProcessElement :=
  {| pe_ID := "Dosing001";
     pe_Description := "Dosing";
     pe_Parameters := [dosing_amount] |}.

(** A process element for which the solution has no assignment. *)
Definition cooling : ProcessElement :=
  {| pe_ID := "Cooling001";
     pe_Description := "Cooling";
     pe_Parameters :=
       [{| param_ID := "Cooling_Temp001";
           param_Description := "Target Temperature";
           param_Key := "Temp";
           param_UnitOfMeasure := celsius;
           param_DataType := "xs:double";
           param_ValueString := "<=20" |}] |}.

Definition water_recipe : GeneralRecipe :=
  {| gr_ID := "GeneralRecipe002";
     gr_ProcessElements := [mixing; dosing; cooling; heating] |}.

Definition mixing_assignment : Assignment :=
  {| a_step_id := "Mixing_of_Liquids001";
     a_resource := "resource: 2025-04_HC10";
     a_capabilities := ["Mixing"];
     a_capability_details :=
       [{| cd_capability_name := "Mixing";
           cd_matched_properties :=
             [{| mp_property_id := "Speed";
                 mp_property_name := "RotationSpeed";
                 mp_property_unit := rpm |}] |}] |}.

Definition dosing_assignment : Assignment :=
  {| a_step_id := "Dosing001";
     a_resource := "resource: 2025-04_HC20";
     a_capabilities := ["Dosing"];
     a_capability_details :=
       [{| cd_capability_name := "Dosing";
           cd_matched_properties :=
             [{| mp_property_id := "Amount";
                 mp_property_name := "Volume";
                 mp_property_unit := litre |}] |}] |}.

Definition water_solution : Solution :=
  {| sol_solution_id := 4;
     sol_assignments := [mixing_assignment; dosing_assignment; heating_assignment] |}.

Definition other_solution : Solution :=
  {| sol_solution_id := 1; sol_assignments := [heating_assignment] |}.

Definition hc10 : list CapabilityData :=
  [{| cdata_capability := [{| cap_capability_name := "Mixing" |}];
      cdata_properties :=
        [{| rp_property_name := "RotationSpeed";
            rp_propertyRealizedBy := "hc10_rotation_speed" |}];
      cdata_realized_by := [] |}].

Definition hc20 : list CapabilityData :=
  [{| cdata_capability := [{| cap_capability_name := "Dosing" |}];
      cdata_properties :=
        [{| rp_property_name := "Volume";
            rp_propertyRealizedBy := "hc20_volume" |};
         {| rp_property_name := "Litre";
            rp_propertyRealizedBy := "hc20_litre" |}];
      cdata_realized_by := ["hc20_dosing_service"] |}].

Definition plant : Resources :=
  <["resource: 2025-04_HC10" := hc10]>
    (<["resource: 2025-04_HC20" := hc20]>
       (<["resource: 2025-04_HC29" := hc29]> ∅)).

(** *** A recipe in which two parameters carry the same identifier *)

Definition twin_recipe : GeneralRecipe :=
  {| gr_ID := "GeneralRecipe003";
     gr_ProcessElements :=
       [{| pe_ID := "Heating001";
           pe_Description := "Heating";
           pe_Parameters :=
             [{| param_ID := "P";
                 param_Description := "Lower bound";
                 param_Key := "Temp";
                 param_UnitOfMeasure := celsius;
                 param_DataType := "xs:double";
                 param_ValueString := ">=60" |};
              {| param_ID := "P";
                 param_Description := "Upper bound";
                 param_Key := "Temp";
                 param_UnitOfMeasure := celsius;
                 param_DataType := "xs:double";
                 param_ValueString := "<=80" |}] |}] |}.

End Scenarios.

(** ** The generic matching, said without loops *)

Module Matching.

(** The test of the inner loop: the property stands for the parameter. *)
Definition key_and_unit_match (param : RecipeParameter) (mp : MatchedProperty)
  : bool :=
  String.eqb (mp_property_id mp) (param_Key param)
  && String.eqb (mp_property_unit mp) (param_UnitOfMeasure param).

(** What one capability detail contributes: the resolution of its first
    matched property that stands for the parameter. *)
Definition detail_reference (resources : Resources) (a : Assignment)
    (param : RecipeParameter) (capability_detail : CapabilityDetail)
  : option string :=
  match List.find (key_and_unit_match param)
                  (cd_matched_properties capability_detail) with
  | Some mp =>
      Resolver.find_property_realized_by resources (a_resource a)
        (cd_capability_name capability_detail) (mp_property_name mp)
  | None => None
  end.

(** The first non-empty contribution, or the marker [null]. *)
Definition first_reference (resources : Resources) (a : Assignment)
    (param : RecipeParameter) (details : list CapabilityDetail) : string :=
  match List.find Text.truthy (omap (detail_reference resources a param) details) with
  | Some r => r
  | None => "null"
  end.

End Matching.

(** ** The links of the earlier draft

    The file Optimization.py ends with an earlier draft of the generator.
    It builds the list [steps] in the same way and differs in the links: it
    first emits all links from a step to a transition and then all links
    from a transition to a step. *)

Module Draft.

Import Text.

(** [for i in range(len(steps) - 1)]: the link L(i+1) from step [i] to
    transition T(i+1). *)
Fixpoint make_step_links (steps : list Step) (indices : list nat)
  : result (list Link) :=
  match indices with
  | [] => mret []
  | i :: indices' =>
      s ← index steps i;
      links ← make_step_links steps indices';
      mret ({| link_ID := "L" +:+ str_of_nat (i + 1);
               link_FromIDValue := step_id s;
               link_FromType := "Step";
               link_ToIDValue := "T" +:+ str_of_nat (i + 1);
               link_ToType := "Transition";
               link_LinkType := "ControlLink";
               link_Depiction := "LineAndArrow";
               link_EvaluationOrder := "1";
               link_Description := "string" |} :: links)
  end.

(** [for i in range(1, len(steps))]: the link L(len(steps)+i-1) from
    transition T(i) to step [i]. *)
Fixpoint make_transition_links (steps : list Step) (indices : list nat)
  : result (list Link) :=
  match indices with
  | [] => mret []
  | i :: indices' =>
      s ← index steps i;
      links ← make_transition_links steps indices';
      mret ({| link_ID := "L" +:+ str_of_nat (length steps + i - 1);
               link_FromIDValue := "T" +:+ str_of_nat i;
               link_FromType := "Transition";
               link_ToIDValue := step_id s;
               link_ToType := "Step";
               link_LinkType := "ControlLink";
               link_Depiction := "LineAndArrow";
               link_EvaluationOrder := "1";
               link_Description := "string" |} :: links)
  end.

Definition links_of (steps : list Step) : result (list Link) :=
  l1 ← make_step_links steps (seq 0 (length steps - 1));
  l2 ← make_transition_links steps (seq 1 (length steps - 1));
  mret (l1 ++ l2).

(** What a link connects. *)
Definition connection (l : Link) : string * string * string * string :=
  (link_FromIDValue l, link_FromType l, link_ToIDValue l, link_ToType l).

End Draft.

(** ** The optimizer: [SolutionOptimizer] of Optimization.py

    The costs are Python floats, here the binary64 numbers [float] with
    their own addition and multiplication.  The weights and the resource
    costs are the fields [self.weights] and [self.resource_costs]; they are
    arguments of the functions. *)

Module Optimizer.

Import Text.

Local Open Scope float_scope.

(** What follows the first occurrence of [sep] in [s], if there is one. *)
Fixpoint after_first (sep s : string) : option string :=
  match s with
  | EmptyString => None
  | String _ s' =>
      if String.prefix sep s then Some (drop_chars (String.length sep) s)
      else after_first sep s'
  end.

(** What precedes the first occurrence of [sep] in [s]; all of [s] when
    there is none. *)
Fixpoint before_first (sep s : string) : string :=
  match s with
  | EmptyString => EmptyString
  | String c s' =>
      if String.prefix sep s then EmptyString else String c (before_first sep s')
  end.

(** [resource_str.split(': ')[1] if ': ' in resource_str else resource_str]. *)
Definition resource_name (resource_str : string) : string :=
  match after_first ": " resource_str with
  | Some rest => before_first ": " rest
  | None => resource_str
  end.

(** An entry of [self.resource_costs]. *)
Record CostData := {
  cost_EnergyCost : float;
  cost_UseCost : float;
  cost_CO2Footprint : float
}.

(** [self.weights]. *)
Record Weights := {
  w_EnergyCost : float;
  w_UseCost : float;
  w_CO2Footprint : float
}.


(** An entry of [solutions['solutions']] as the optimizer reads it: the keys
    the generator reads and [material_flow_consistent]. *)
Record SolutionRecord := {
  sr_solution : Solution;
  sr_material_flow_consistent : bool
}.

(** What the loop of [calculate_solution_cost] carries; [cost_warnings] are
    the lines it prints. *)
Record CostState := {
  total_energy_cost : float;
  total_use_cost : float;
  total_co2_footprint : float;
  resource_usage : gmap string nat;
  cost_warnings : list string
}.

Definition initial_cost_state : CostState :=
  {| total_energy_cost := 0;
     total_use_cost := 0;
     total_co2_footprint := 0;
     resource_usage := ∅;
     cost_warnings := [] |}.

(** Body of [for assignment in solution['assignments']]. *)
Definition add_assignment (resource_costs : gmap string CostData)
    (solution_id : Z) (st : CostState) (assignment : Assignment) : CostState :=
  let name := resource_name (a_resource assignment) in
  match resource_costs !! name with
  | Some cost_data =>
      {| total_energy_cost := total_energy_cost st + cost_EnergyCost cost_data;
         total_use_cost := total_use_cost st + cost_UseCost cost_data;
         total_co2_footprint := total_co2_footprint st + cost_CO2Footprint cost_data;
         resource_usage :=
           match resource_usage st !! name with
           | Some n => <[name := (n + 1)%nat]> (resource_usage st)
           | None => <[name := 1%nat]> (resource_usage st)
           end;
         cost_warnings := cost_warnings st |}
  | None =>
      {| total_energy_cost := total_energy_cost st;
         total_use_cost := total_use_cost st;
         total_co2_footprint := total_co2_footprint st;
         resource_usage := resource_usage st;
         cost_warnings := cost_warnings st ++
           ["Warning: Resource " +:+ name +:+ " in solution "
              +:+ str_of_Z solution_id +:+ " has no cost data"] |}
  end.

(** The dict [calculate_solution_cost] returns. *)
Record CostResult := {
  res_solution_id : Z;
  res_total_energy_cost : float;
  res_total_use_cost : float;
  res_total_co2_footprint : float;
  res_composite_score : float;
  res_resource_usage : gmap string nat;
  res_material_flow_consistent : bool;
  res_breakdown_energy : float;
  res_breakdown_use : float;
  res_breakdown_co2 : float
}.

(** The function, with the lines it prints as second component. *)
Definition calculate_solution_cost (weights : Weights)
    (resource_costs : gmap string CostData) (solution : SolutionRecord)
  : CostResult * list string :=
  let id := sol_solution_id (sr_solution solution) in
  let st := fold_left (add_assignment resource_costs id)
              (sol_assignments (sr_solution solution)) initial_cost_state in
  ({| res_solution_id := id;
      res_total_energy_cost := total_energy_cost st;
      res_total_use_cost := total_use_cost st;
      res_total_co2_footprint := total_co2_footprint st;
      res_composite_score :=
        total_energy_cost st * w_EnergyCost weights
        + total_use_cost st * w_UseCost weights
        + total_co2_footprint st * w_CO2Footprint weights;
      res_resource_usage := resource_usage st;
      res_material_flow_consistent := sr_material_flow_consistent solution;
      res_breakdown_energy := total_energy_cost st * w_EnergyCost weights;
      res_breakdown_use := total_use_cost st * w_UseCost weights;
      res_breakdown_co2 := total_co2_footprint st * w_CO2Footprint weights |},
   cost_warnings st).

Section Sorting.

(** [list.sort(key=lambda x: x["composite_score"])]. *)
Variable sort_by_score : list CostResult -> list CostResult.

(** [optimize_solutions] once the files are read: [resource_costs] is what
    [load_all_resource_costs] has stored, [solutions] what the solutions
    file holds. *)
Definition optimize_solutions (weights : Weights)
    (resource_costs : gmap string CostData) (solutions : list SolutionRecord)
  : list CostResult :=
  if Nat.eqb (size resource_costs) 0 then []
  else sort_by_score
         (map (fun solution =>
                 fst (calculate_solution_cost weights resource_costs solution))
              solutions).

(** The entry [optimal_solution] of the report that [main] writes: [main]
    writes no report when there are no results. *)
Definition optimal_solution (weights : Weights)
    (resource_costs : gmap string CostData) (solutions : list SolutionRecord)
  : option CostResult :=
  head (optimize_solutions weights resource_costs solutions).

End Sorting.

End Optimizer.

(** ** A scenario for the optimizer *)

Module OptimizerScenarios.

Import Optimizer.

Local Open Scope float_scope.

(** A stable sort by insertion that compares the scores with [<]. *)
Fixpoint insert_by_score (x : CostResult) (l : list CostResult) : list CostResult :=
  match l with
  | [] => [x]
  | y :: l' =>
      if PrimFloat.ltb (res_composite_score y) (res_composite_score x)
      then y :: insert_by_score x l'
      else x :: y :: l'
  end.

Definition sort_by_score (l : list CostResult) : list CostResult :=
  foldr insert_by_score [] l.


Definition records : list SolutionRecord :=
  [{| sr_solution := Scenarios.water_solution;
      sr_material_flow_consistent := true |};
   {| sr_solution := Scenarios.other_solution;
      sr_material_flow_consistent := false |}].

End OptimizerScenarios.

(** * Properties *)

Import Text Resolver Generator.

(** ** Text *)

Section TextFacts.

Example str_of_nat_0 : Text.str_of_nat 0 = "0". Proof. reflexivity. Qed.
Example str_of_nat_12 : Text.str_of_nat 12 = "12". Proof. reflexivity. Qed.
Example str_of_Z_4 : Text.str_of_Z 4 = "4". Proof. reflexivity. Qed.
Example str_of_Z_0 : Text.str_of_Z 0 = "0". Proof. reflexivity. Qed.
Example str_of_Z_neg : Text.str_of_Z (-3) = "-3". Proof. reflexivity. Qed.
Example fmt_03d_1 : Text.fmt_03d 1 = "001". Proof. reflexivity. Qed.
Example fmt_03d_42 : Text.fmt_03d 42 = "042". Proof. reflexivity. Qed.
Example fmt_03d_1000 : Text.fmt_03d 1000 = "1000". Proof. reflexivity. Qed.
Example lower_ex : Text.lower "Litre_A9z" = "litre_a9z". Proof. reflexivity. Qed.
Example remove_all_ex :
  Text.remove_all "2025-04_" (Text.remove_all "resource: " "resource: 2025-04_HC10")
  = "HC10".
Proof. reflexivity. Qed.
Example remove_all_twice : Text.remove_all "ab" "xababyab" = "xy".
Proof. reflexivity. Qed.
Example remove_all_no_rescan : Text.remove_all "ab" "aabb" = "ab".
Proof. reflexivity. Qed.
Example last_segment_ex :
  Text.last_segment "/" "http://example.org/unit/foo" = "foo".
Proof. reflexivity. Qed.

Lemma prefix_split (p s : string) :
  String.prefix p s = true -> exists rest, s = p +:+ rest.
Proof.
  revert s. induction p as [|c p IH]; intros s H.
  - exists s. reflexivity.
  - destruct s as [|d s]; simpl in H; [discriminate|].
    destruct (ascii_dec c d) as [->|]; [|discriminate].
    destruct (IH s H) as [rest ->]. exists rest. reflexivity.
Qed.

Lemma prefix_append (p rest : string) : String.prefix p (p +:+ rest) = true.
Proof.
  induction p as [|c p IH]; simpl.
  - destruct rest; reflexivity.
  - destruct (ascii_dec c c); [exact IH|congruence].
Qed.

Lemma startswith_iff (s p : string) :
  startswith s p = true <-> exists rest, s = p +:+ rest.
Proof.
  unfold startswith. split.
  - apply prefix_split.
  - intros [rest ->]. apply prefix_append.
Qed.

Lemma drop_chars_append (p rest : string) :
  drop_chars (String.length p) (p +:+ rest) = rest.
Proof. induction p as [|c p IH]; simpl; [destruct rest; reflexivity|exact IH]. Qed.

Lemma nat_of_str_str_of_nat (n : nat) : nat_of_str (str_of_nat n) = Some n.
Proof.
  unfold nat_of_str, str_of_nat. rewrite NilEmpty.usu. simpl.
  f_equal. apply DecimalNat.Unsigned.of_to.
Qed.

Lemma nat_of_str_zero (s : string) : nat_of_str (String "0" s) = nat_of_str s.
Proof.
  unfold nat_of_str. simpl. destruct (NilEmpty.uint_of_string s); reflexivity.
Qed.

(** The ordinal can be read back from its padded form. *)
Lemma nat_of_str_fmt_03d (n : nat) : nat_of_str (fmt_03d n) = Some n.
Proof.
  unfold fmt_03d.
  induction (3 - String.length (str_of_nat n)) as [|k IH].
  - apply nat_of_str_str_of_nat.
  - change (nat_of_str (String "0" (replicate_char k "0" +:+ str_of_nat n)) = Some n).
    rewrite nat_of_str_zero. exact IH.
Qed.

(** A string of digits holds no colon. *)
Lemma before_colon_digits (s rest : string) (d : Decimal.uint) :
  NilEmpty.uint_of_string s = Some d ->
  before_colon (s +:+ ":" +:+ rest) = s.
Proof.
  revert d. induction s as [|c s IH]; intros d H; simpl; [reflexivity|].
  simpl in H.
  destruct (NilEmpty.uint_of_string s) as [d0|] eqn:E; [|discriminate].
  rewrite (IH d0 eq_refl).
  apply uint_of_char_spec in H.
  destruct H as [[-> _]|[[-> _]|[[-> _]|[[-> _]|[[-> _]|[[-> _]|[[-> _]|[[-> _]|
                 [[-> _]|[-> _]]]]]]]]]]; reflexivity.
Qed.

(** The ordinal of an identifier issued with the counter at [n] is [n]. *)
Lemma ordinal_of_fmt_03d (n : nat) (rest : string) :
  ordinal_of (fmt_03d n +:+ ":" +:+ rest) = Some n.
Proof.
  unfold ordinal_of.
  pose proof (nat_of_str_fmt_03d n) as H. unfold nat_of_str in H.
  destruct (NilEmpty.uint_of_string (fmt_03d n)) as [d|] eqn:E; [|discriminate].
  rewrite (before_colon_digits _ rest d E). apply nat_of_str_fmt_03d.
Qed.


End TextFacts.

(** ** The resolver *)

Section ResolverFacts.








End ResolverFacts.

(** ** The formula pass *)

Section FormulaFacts.

Variable resources : Resources.

Local Abbreviation alloc := (alloc resources).
Local Abbreviation fid := (fid resources).
Local Abbreviation entry := (entry resources).

Lemma fold_parameters (pe : ProcessElement) (a : Assignment)
    (params : list RecipeParameter) (st : ParamState) :
  fold_left (process_parameter resources pe a) params st
  = fold_left alloc (map (fun param => (pe, a, param)) params) st.
Proof.
  revert st. induction params as [|param params IH]; intros st; simpl;
    [reflexivity|apply IH].
Qed.

Lemma fold_elements (assignments : list Assignment)
    (process_elements : list ProcessElement) (st : ParamState) :
  fold_left (process_element resources assignments) process_elements st
  = fold_left alloc (all_params (assigned assignments process_elements)) st.
Proof.
  revert st. induction process_elements as [|pe pes IH]; intros st; simpl;
    [reflexivity|].
  unfold process_element at 2.
  destruct (find_assignment assignments (pe_ID pe)) as [a|]; simpl.
  - unfold all_params in *. simpl. rewrite fold_left_app, IH.
    unfold params_of at 2. simpl. rewrite fold_parameters. reflexivity.
  - apply IH.
Qed.

Lemma alloc_counter (l : list (ProcessElement * Assignment * RecipeParameter))
    (st : ParamState) :
  global_param_counter (fold_left alloc l st) = global_param_counter st + length l.
Proof.
  revert st. induction l as [|x l IH]; intros st; simpl; [lia|].
  rewrite IH. simpl. lia.
Qed.

Lemma alloc_formula (l : list (ProcessElement * Assignment * RecipeParameter))
    (st : ParamState) :
  formula (fold_left alloc l st)
  = formula st ++ imap (fun k x => entry (global_param_counter st + k) x) l.
Proof.
  revert st. induction l as [|x l IH]; intros st; simpl.
  - rewrite app_nil_r. reflexivity.
  - rewrite IH. simpl. rewrite <- app_assoc. simpl. f_equal. f_equal.
    + unfold entry. f_equal. lia.
    + apply imap_ext. intros k y _. simpl. f_equal. lia.
Qed.

Lemma alloc_mapping_other (l : list (ProcessElement * Assignment * RecipeParameter))
    (st : ParamState) (id : string) :
  ~ In id (map pid l) ->
  param_mapping (fold_left alloc l st) !! id = param_mapping st !! id.
Proof.
  revert st. induction l as [|x l IH]; intros st Hid; simpl; [reflexivity|].
  simpl in Hid. rewrite IH by tauto. simpl.
  apply lookup_insert_ne. unfold pid in Hid. tauto.
Qed.


(** The state the formula pass ends in. *)
Lemma formula_pass_formula (assignments : list Assignment)
    (process_elements : list ProcessElement) :
  formula (formula_pass resources assignments process_elements)
  = imap (fun k x => entry (1 + k) x)
         (all_params (assigned assignments process_elements)).
Proof. unfold formula_pass. rewrite fold_elements, alloc_formula. reflexivity. Qed.




End FormulaFacts.

(** ** The step pass *)

Section StepFacts.

Variable resources : Resources.
Variable uuid4 : nat -> string.

Local Abbreviation add_step := (add_step resources uuid4).
Local Abbreviation issue_all := (issue_all resources uuid4).

Lemma assigned_find (assignments : list Assignment)
    (process_elements : list ProcessElement) (x : ProcessElement * Assignment) :
  In x (assigned assignments process_elements) ->
  find_assignment assignments (pe_ID x.1) = Some x.2.
Proof.
  induction process_elements as [|pe pes IH]; simpl; [tauto|].
  destruct (find_assignment assignments (pe_ID pe)) as [a|] eqn:E; [|exact IH].
  intros [<-|H]; [exact E|exact (IH H)].
Qed.

Lemma assigned_length_le (assignments : list Assignment)
    (process_elements : list ProcessElement) :
  length (assigned assignments process_elements) <= length process_elements.
Proof.
  induction process_elements as [|pe pes IH]; simpl; [lia|].
  destruct (find_assignment assignments (pe_ID pe)); simpl; lia.
Qed.

Lemma numbered_app (l1 l2 : list (ProcessElement * option Annotation)) :
  numbered (l1 ++ l2) = numbered l1 ++ numbered l2.
Proof.
  induction l1 as [|[p [an|]] l1 IH]; simpl;
    [reflexivity|f_equal; exact IH|exact IH].
Qed.

Lemma add_step_None (assignments : list Assignment) (st : StepState)
    (pe : ProcessElement) :
  find_assignment assignments (pe_ID pe) = None ->
  let st' := add_step assignments st pe in
  steps st' = steps st
  /\ step_counter st' = step_counter st
  /\ recipe_element_counter st' = recipe_element_counter st
  /\ uuid_draws st' = uuid_draws st
  /\ annotated st' = annotated st ++ [(pe, None)].
Proof. intros E. unfold Generator.add_step. rewrite E. simpl. tauto. Qed.

Lemma add_step_Some (assignments : list Assignment) (st : StepState)
    (pe : ProcessElement) (a : Assignment) :
  find_assignment assignments (pe_ID pe) = Some a ->
  let st' := add_step assignments st pe in
  let r := issue_recipe_element_id resources uuid4 a
             (recipe_element_counter st) (uuid_draws st) in
  let ann := {| ann_recipe_element_id := r.1;
                ann_recipe_element_number := recipe_element_counter st;
                ann_capability_name :=
                  first_capability_name (a_capability_details a) "Unknown" |} in
  steps st' = steps st ++ [operation_step (step_counter st) (pe, a, ann)]
  /\ step_counter st' = step_counter st + 1
  /\ recipe_element_counter st' = recipe_element_counter st + 1
  /\ uuid_draws st' = r.2
  /\ annotated st' = annotated st ++ [(pe, Some ann)].
Proof.
  intros E. unfold Generator.add_step. rewrite E.
  destruct (issue_recipe_element_id resources uuid4 a
              (recipe_element_counter st) (uuid_draws st)) as [id d'].
  simpl. unfold operation_step. simpl. tauto.
Qed.

(** The state the step pass ends in, from any state it starts in. *)
Lemma add_step_fold (assignments : list Assignment)
    (process_elements : list ProcessElement) (st : StepState) :
  let st' := fold_left (add_step assignments) process_elements st in
  let anns := issue_all (recipe_element_counter st) (uuid_draws st)
                (assigned assignments process_elements) in
  steps st' = steps st ++ imap (fun k x => operation_step (step_counter st + k) x) anns
  /\ step_counter st' = step_counter st + length anns
  /\ recipe_element_counter st' = recipe_element_counter st + length anns
  /\ numbered (annotated st')
     = numbered (annotated st) ++ map (fun x => (x.1.1, x.2)) anns.
Proof.
  revert st. induction process_elements as [|pe pes IH]; intros st; simpl.
  - rewrite !app_nil_r. repeat split; lia.
  - destruct (IH (add_step assignments st pe)) as (H1 & H2 & H3 & H4).
    rewrite H1, H2, H3, H4. clear H1 H2 H3 H4 IH.
    destruct (find_assignment assignments (pe_ID pe)) as [a|] eqn:E.
    + destruct (add_step_Some assignments st pe a E) as (S1 & S2 & S3 & S4 & S5).
      rewrite S1, S2, S3, S4, S5. clear S1 S2 S3 S4 S5.
      rewrite numbered_app. simpl. rewrite <- !app_assoc. simpl.
      rewrite Nat.add_0_r.
      repeat split; try lia.
      f_equal. f_equal. apply imap_ext. intros k y _. simpl. f_equal. lia.
    + destruct (add_step_None assignments st pe E) as (S1 & S2 & S3 & S4 & S5).
      rewrite S1, S2, S3, S4, S5. clear S1 S2 S3 S4 S5.
      rewrite numbered_app. simpl. rewrite app_nil_r. tauto.
Qed.

Lemma realized_recipe_element_id_spec (records : list CapabilityData)
    (a : Assignment) (n : nat) :
  realized_recipe_element_id records a n
  = (fun r => fmt_03d n +:+ ":" +:+ r) <$> first_realized_by records a.
Proof.
  induction records as [|record records IH]; simpl; [reflexivity|].
  destruct (capabilities_matched _ _); [|exact IH].
  destruct (cdata_realized_by record); [exact IH|reflexivity].
Qed.

Lemma issue_recipe_element_id_spec (a : Assignment) (n d : nat) :
  issue_recipe_element_id resources uuid4 a n d
  = match realized_by_reference resources a with
    | Some r => (fmt_03d n +:+ ":" +:+ r, d)
    | None => (fmt_03d n +:+ ":" +:+ uuid4 d, d + 1)
    end.
Proof.
  unfold issue_recipe_element_id, lookup_recipe_element_id, realized_by_reference.
  destruct (resources !! a_resource a) as [records|]; [|reflexivity].
  rewrite realized_recipe_element_id_spec.
  destruct (first_realized_by records a); reflexivity.
Qed.

Lemma issue_all_length (n d : nat) (els : list (ProcessElement * Assignment)) :
  length (issue_all n d els) = length els.
Proof.
  revert n d. induction els as [|[pe a] els IH]; intros n d; simpl;
    [reflexivity|f_equal; apply IH].
Qed.

(** The keys stored on the [j]-th assigned process element. *)
Lemma issue_all_lookup (n d : nat) (els : list (ProcessElement * Assignment))
    (j : nat) (pe : ProcessElement) (a : Assignment) :
  els !! j = Some (pe, a) ->
  issue_all n d els !! j
  = Some (pe, a,
          {| ann_recipe_element_id :=
               fmt_03d (n + j) +:+ ":" +:+
                 match realized_by_reference resources a with
                 | Some r => r
                 | None => uuid4 (d + fallbacks resources (take j els))
                 end;
             ann_recipe_element_number := n + j;
             ann_capability_name :=
               first_capability_name (a_capability_details a) "Unknown" |}).
Proof.
  revert n d j. induction els as [|[pe0 a0] els IH]; intros n d j H;
    [discriminate|].
  destruct j as [|j]; simpl in *.
  - injection H as -> ->. rewrite issue_recipe_element_id_spec, !Nat.add_0_r.
    destruct (realized_by_reference resources a); reflexivity.
  - rewrite (IH _ _ j H). rewrite issue_recipe_element_id_spec.
    replace (n + 1 + j) with (n + S j) by lia.
    destruct (realized_by_reference resources a0); simpl;
      destruct (realized_by_reference resources a); try reflexivity.
    replace (d + 1 + fallbacks resources (take j els))
      with (d + S (fallbacks resources (take j els))) by lia.
    reflexivity.
Qed.

Lemma issue_all_elements (n d : nat) (els : list (ProcessElement * Assignment)) :
  map (fun x => x.1) (issue_all n d els) = els.
Proof.
  revert n d. induction els as [|[pe a] els IH]; intros n d; simpl;
    [reflexivity|f_equal; apply IH].
Qed.

Lemma issue_all_numbers (n d : nat) (els : list (ProcessElement * Assignment)) :
  map (fun x => ann_recipe_element_number x.2) (issue_all n d els)
  = seq n (length els).
Proof.
  revert n d. induction els as [|[pe a] els IH]; intros n d; simpl;
    [reflexivity|].
  f_equal. rewrite IH. f_equal. lia.
Qed.

(** A list whose numbers already count up is left as it is by the sort. *)
Lemma sort_by_number_counting (l : list (ProcessElement * Annotation)) (n : nat) :
  map (fun x => ann_recipe_element_number x.2) l = seq n (length l) ->
  sort_by_number l = l.
Proof.
  revert n. induction l as [|x l IH]; intros n H; [reflexivity|].
  simpl in H. injection H as Hx Hl.
  unfold sort_by_number in *. simpl. rewrite (IH (S n) Hl).
  destruct l as [|y l]; [reflexivity|].
  simpl in Hl. injection Hl as Hy _. simpl.
  replace (ann_recipe_element_number x.2 <=? ann_recipe_element_number y.2)
    with true; [reflexivity|].
  symmetry. apply Nat.leb_le. simpl in *. lia.
Qed.

Lemma operation_elements_spec (mapping : gmap string string)
    (assignments : list Assignment)
    (anns : list (ProcessElement * Assignment * Annotation)) :
  (forall x, In x anns -> find_assignment assignments (pe_ID x.1.1) = Some x.1.2) ->
  operation_elements mapping assignments (map (fun x => (x.1.1, x.2)) anns)
  = map (fun x => operation_element mapping x.1.2 x.1.1 x.2) anns.
Proof.
  induction anns as [|[[pe a] ann] anns IH]; intros H; simpl; [reflexivity|].
  pose proof (H (pe, a, ann) (or_introl eq_refl)) as E. simpl in E.
  rewrite E. f_equal.
  apply IH. intros x Hx. apply H. right. exact Hx.
Qed.

Lemma step_pass_spec (assignments : list Assignment)
    (process_elements : list ProcessElement) :
  let st := step_pass resources uuid4 assignments process_elements in
  let anns := issue_all 1 0 (assigned assignments process_elements) in
  all_steps st
  = init_step :: imap (fun k x => operation_step (2 + k) x) anns
      ++ [end_step (2 + length anns)]
  /\ numbered (annotated st) = map (fun x => (x.1.1, x.2)) anns.
Proof.
  unfold step_pass, all_steps.
  destruct (add_step_fold assignments process_elements initial_step_state)
    as (H1 & H2 & _ & H4).
  simpl in *. rewrite H1, H2, H4. split; reflexivity.
Qed.

Lemma all_steps_length (assignments : list Assignment)
    (process_elements : list ProcessElement) :
  length (all_steps (step_pass resources uuid4 assignments process_elements))
  = length (assigned assignments process_elements) + 2.
Proof.
  destruct (step_pass_spec assignments process_elements) as [-> _].
  simpl. rewrite length_app, length_imap, issue_all_length. simpl. lia.
Qed.

(** The steps are named S1, S2, ... in the order of the list. *)
Lemma all_steps_id (assignments : list Assignment)
    (process_elements : list ProcessElement) (i : nat) (s : Step) :
  all_steps (step_pass resources uuid4 assignments process_elements) !! i = Some s ->
  step_id s = "S" +:+ str_of_nat (i + 1).
Proof.
  destruct (step_pass_spec assignments process_elements) as [-> _].
  destruct i as [|k]; simpl.
  - intros [= <-]. reflexivity.
  - intros H. apply lookup_app_Some in H as [H|[Hlen H]].
    + rewrite list_lookup_imap in H.
      destruct (issue_all 1 0 _ !! k) as [x|]; [|discriminate].
      simpl in H. injection H as <-. simpl.
      replace (S (S k)) with (S k + 1) by lia. reflexivity.
    + rewrite length_imap in *.
      destruct (k - length (issue_all 1 0 (assigned assignments process_elements)))
        as [|m] eqn:E; [|destruct m; discriminate].
      simpl in H. injection H as <-. simpl.
      replace (S (S (length (issue_all 1 0 (assigned assignments process_elements)))))
        with (S k + 1) by lia.
      reflexivity.
Qed.

Lemma recipe_elements_spec (mapping : gmap string string)
    (assignments : list Assignment) (process_elements : list ProcessElement) :
  recipe_elements_of mapping assignments
    (annotated (step_pass resources uuid4 assignments process_elements))
  = [marker "Begin" "Init"; marker "End" "End"]
      ++ map (fun x => operation_element mapping x.1.2 x.1.1 x.2)
             (issue_all 1 0 (assigned assignments process_elements)).
Proof.
  unfold recipe_elements_of. f_equal.
  destruct (step_pass_spec assignments process_elements) as [_ ->].
  rewrite (sort_by_number_counting _ 1).
  - apply operation_elements_spec. intros x Hx.
    apply (assigned_find assignments process_elements x.1).
    rewrite <- (issue_all_elements 1 0 (assigned assignments process_elements)).
    apply (in_map (fun x => x.1)). exact Hx.
  - rewrite map_map, length_map, issue_all_length. simpl.
    apply issue_all_numbers.
Qed.

Lemma filter_operations (mapping : gmap string string)
    (anns : list (ProcessElement * Assignment * Annotation)) :
  List.filter (fun re => String.eqb (re_RecipeElementType re) "Operation")
    ([marker "Begin" "Init"; marker "End" "End"]
       ++ map (fun x => operation_element mapping x.1.2 x.1.1 x.2) anns)
  = map (fun x => operation_element mapping x.1.2 x.1.1 x.2) anns.
Proof.
  simpl. induction anns as [|x anns IH]; simpl; [reflexivity|].
  f_equal. exact IH.
Qed.

End StepFacts.

(** ** Links and transitions *)

Section FlowFacts.

Lemma index_Some {A} (l : list A) (i : nat) (a : A) :
  l !! i = Some a -> index l i = Ok a.
Proof. intros H. unfold index. rewrite H. reflexivity. Qed.

Lemma index_in_range {A} (l : list A) (i : nat) :
  i < length l -> exists a, l !! i = Some a /\ index l i = Ok a.
Proof.
  intros H. destruct (lookup_lt_is_Some_2 l i H) as [a Ha].
  exists a. split; [exact Ha|apply index_Some; exact Ha].
Qed.

(** The links of [n] consecutive turns of the loop, from index [start] and
    link counter [c] on. *)
Lemma make_links_spec (steps : list Step) (n start c : nat) :
  start + n + 1 <= length steps ->
  exists links,
    make_links steps (seq start n) c = Ok links
    /\ length links = 2 * n
    /\ forall k s s', k < n ->
         steps !! (start + k) = Some s ->
         steps !! (start + k + 1) = Some s' ->
         links !! (2 * k) = Some (step_to_transition (c + 2 * k) s (start + k))
         /\ links !! (2 * k + 1)
            = Some (transition_to_step (c + 2 * k + 1) (start + k) s').
Proof.
  revert start c. induction n as [|n IH]; intros start c Hlen.
  - exists []. repeat split; [lia..].
  - cbn [seq make_links].
    destruct (index_in_range steps start) as (s0 & Hs0 & ->); [lia|].
    destruct (index_in_range steps (start + 1)) as (s1 & Hs1 & ->); [lia|].
    destruct (IH (S start) (c + 1 + 1)) as (links & -> & Hl & Hk); [lia|].
    eexists. split; [reflexivity|]. split; [simpl; lia|].
    intros k s s' Hlt Hs Hs'. destruct k as [|k].
    + rewrite Nat.add_0_r in Hs, Hs'.
      replace (2 * 0) with 0 by lia. rewrite !Nat.add_0_r. simpl.
      split; congruence.
    + assert (E1 : 2 * S k = S (S (2 * k))) by lia.
      assert (E2 : 2 * S k + 1 = S (S (2 * k + 1))) by lia.
      destruct (Hk k s s') as [K1 K2]; [lia| | |].
      * rewrite <- Hs. f_equal. lia.
      * rewrite <- Hs'. f_equal. lia.
      * rewrite E2, E1. split.
        -- change (links !! (2 * k)
                   = Some (step_to_transition (c + S (S (2 * k))) s (start + S k))).
           rewrite K1. f_equal. f_equal; lia.
        -- change (links !! (2 * k + 1)
                   = Some (transition_to_step (c + S (S (2 * k)) + 1) (start + S k) s')).
           rewrite K2. f_equal. f_equal; lia.
Qed.

Lemma make_transition_spec (steps : list Step) (i : nat) (s : Step) :
  steps !! (i - 1) = Some s ->
  make_transition steps i
  = Ok {| trans_ID := "T" +:+ str_of_nat i;
          trans_Condition :=
            if Nat.eqb i 1 then "True"
            else "Step " +:+ step_description s +:+ " is Completed" |}.
Proof.
  intros H. unfold make_transition. rewrite (index_Some _ _ _ H).
  destruct (Nat.eqb i 1); [reflexivity|].
  destruct (Nat.eqb i (length steps - 1)); reflexivity.
Qed.

(** The transitions of [n] consecutive turns of the loop, from index [start]
    on. *)
Lemma make_transitions_spec (steps : list Step) (n start : nat) :
  1 <= start -> start + n <= length steps ->
  exists ts,
    make_transitions steps (seq start n) = Ok ts
    /\ length ts = n
    /\ forall k s, k < n ->
         steps !! (start + k - 1) = Some s ->
         ts !! k
         = Some {| trans_ID := "T" +:+ str_of_nat (start + k);
                   trans_Condition :=
                     if Nat.eqb (start + k) 1 then "True"
                     else "Step " +:+ step_description s +:+ " is Completed" |}.
Proof.
  revert start. induction n as [|n IH]; intros start H1 Hlen.
  - exists []. repeat split; [lia..].
  - cbn [seq make_transitions].
    destruct (lookup_lt_is_Some_2 steps (start - 1)) as [s0 Hs0]; [lia|].
    rewrite (make_transition_spec steps start s0 Hs0).
    destruct (IH (S start)) as (ts & -> & Hl & Hk); [lia..|].
    eexists. split; [reflexivity|]. split; [simpl; lia|].
    intros k s Hlt Hs. destruct k as [|k].
    + rewrite Nat.add_0_r in *.
      assert (s = s0) as -> by congruence. reflexivity.
    + change (ts !! k
              = Some {| trans_ID := "T" +:+ str_of_nat (start + S k);
                        trans_Condition :=
                          if Nat.eqb (start + S k) 1 then "True"
                          else "Step " +:+ step_description s +:+ " is Completed" |}).
      rewrite (Hk k s); [|lia|].
      * replace (S start + k) with (start + S k) by lia. reflexivity.
      * rewrite <- Hs. f_equal. lia.
Qed.

End FlowFacts.

(** ** The generator as a whole *)

Section GeneratorFacts.

Variable resources : Resources.
Variable uuid4 : nat -> string.
Variable now : nat -> string.

Local Abbreviation generate := (generate_b2mml_master_recipe resources uuid4 now).

Lemma find_solution_In (solutions : list Solution) (id : Z) (sol : Solution) :
  find_solution solutions id = Some sol ->
  In sol solutions /\ sol_solution_id sol = id.
Proof.
  induction solutions as [|s solutions IH]; simpl; [discriminate|].
  destruct (Z.eqb (sol_solution_id s) id) eqn:E.
  - intros [= <-]. apply Z.eqb_eq in E. tauto.
  - intros H. destruct (IH H). tauto.
Qed.


Lemma find_assignment_has (assignments : list Assignment) (pe : ProcessElement) :
  has_assignment assignments pe
  = match find_assignment assignments (pe_ID pe) with
    | Some _ => true
    | None => false
    end.
Proof.
  unfold has_assignment.
  induction assignments as [|a assignments IH]; simpl; [reflexivity|].
  destruct (String.eqb (a_step_id a) (pe_ID pe)); [reflexivity|exact IH].
Qed.

Lemma assigned_elements (assignments : list Assignment)
    (process_elements : list ProcessElement) :
  map (fun x => x.1) (assigned assignments process_elements)
  = List.filter (has_assignment assignments) process_elements.
Proof.
  induction process_elements as [|pe pes IH]; simpl; [reflexivity|].
  rewrite find_assignment_has.
  destruct (find_assignment assignments (pe_ID pe)); simpl; [f_equal|]; exact IH.
Qed.

Lemma assigned_length (assignments : list Assignment)
    (process_elements : list ProcessElement) :
  length (assigned assignments process_elements)
  = length (List.filter (has_assignment assignments) process_elements).
Proof. rewrite <- assigned_elements, length_map. reflexivity. Qed.

(** The steps of a recipe always admit their links and transitions. *)
Lemma links_of_total (assignments : list Assignment)
    (process_elements : list ProcessElement) :
  let steps := all_steps (step_pass resources uuid4 assignments process_elements) in
  exists links,
    links_of steps = Ok links
    /\ length links = 2 * (length steps - 1)
    /\ forall k s s', k < length steps - 1 ->
         steps !! k = Some s -> steps !! (k + 1) = Some s' ->
         links !! (2 * k) = Some (step_to_transition (1 + 2 * k) s k)
         /\ links !! (2 * k + 1) = Some (transition_to_step (1 + 2 * k + 1) k s').
Proof.
  intros steps. unfold links_of.
  assert (Hlen : length steps = length (assigned assignments process_elements) + 2)
    by apply all_steps_length.
  destruct (make_links_spec steps (length steps - 1) 0 1) as (links & E & Hl & Hk);
    [lia|].
  exists links. split; [exact E|]. split; [exact Hl|].
  intros k s s' Hlt Hs Hs'. apply (Hk k s s' Hlt Hs Hs').
Qed.

Lemma transitions_of_total (assignments : list Assignment)
    (process_elements : list ProcessElement) :
  let steps := all_steps (step_pass resources uuid4 assignments process_elements) in
  exists ts,
    transitions_of steps = Ok ts
    /\ length ts = length steps - 1
    /\ forall k s, k < length steps - 1 ->
         steps !! k = Some s ->
         ts !! k
         = Some {| trans_ID := "T" +:+ str_of_nat (1 + k);
                   trans_Condition :=
                     if Nat.eqb (1 + k) 1 then "True"
                     else "Step " +:+ step_description s +:+ " is Completed" |}.
Proof.
  intros steps. unfold transitions_of.
  assert (Hlen : length steps = length (assigned assignments process_elements) + 2)
    by apply all_steps_length.
  destruct (make_transitions_spec steps (length steps - 1) 1) as (ts & E & Hl & Hk);
    [lia..|].
  exists ts. split; [exact E|]. split; [exact Hl|].
  intros k s Hlt Hs. apply (Hk k s Hlt).
  rewrite <- Hs. f_equal. lia.
Qed.

(** What a returned document is made of. *)
Lemma generate_Ok (solutions : list Solution) (id : Z)
    (general_recipe : GeneralRecipe) (doc : Document) (id' : Z) :
  generate solutions id general_recipe = Ok (doc, id') ->
  exists sol,
    find_solution solutions id = Some sol
    /\ id' = id
    /\ doc_Formula doc
       = formula (formula_pass resources (sol_assignments sol)
                    (gr_ProcessElements general_recipe))
    /\ doc_Steps doc
       = all_steps (step_pass resources uuid4 (sol_assignments sol)
                      (gr_ProcessElements general_recipe))
    /\ links_of (doc_Steps doc) = Ok (doc_Links doc)
    /\ transitions_of (doc_Steps doc) = Ok (doc_Transitions doc)
    /\ doc_RecipeElements doc
       = recipe_elements_of
           (param_mapping (formula_pass resources (sol_assignments sol)
                             (gr_ProcessElements general_recipe)))
           (sol_assignments sol)
           (annotated (step_pass resources uuid4 (sol_assignments sol)
                         (gr_ProcessElements general_recipe))).
Proof.
  unfold generate_b2mml_master_recipe.
  destruct (find_solution solutions id) as [sol|]; [|discriminate].
  destruct (links_of _) as [links|e] eqn:El; [|discriminate].
  destruct (transitions_of _) as [ts|e] eqn:Et; [|discriminate].
  intros [= <- <-]. exists sol. simpl. rewrite El, Et. tauto.
Qed.


End GeneratorFacts.

(** ** Control flow of the compiled document *)

(** The sizes of the three lists of the procedure logic. *)
Lemma procedure_logic_sizes (resources : Resources)
    (uuid4 now : nat -> string) (solutions : list Solution) (id : Z)
    (general_recipe : GeneralRecipe) (sol : Solution) (doc : Document) (id' : Z) :
  find_solution solutions id = Some sol ->
  generate_b2mml_master_recipe resources uuid4 now solutions id general_recipe
  = Ok (doc, id') ->
  length (doc_Steps doc)
  = length (assigned (sol_assignments sol) (gr_ProcessElements general_recipe)) + 2
  /\ length (doc_Transitions doc) = length (doc_Steps doc) - 1
  /\ length (doc_Links doc) = 2 * (length (doc_Steps doc) - 1).
Proof.
  intros Hsol Hgen.
  destruct (generate_Ok _ _ _ _ _ _ _ _ Hgen)
    as (sol' & Hsol' & _ & _ & Hsteps & Hlinks & Htrans & _).
  assert (sol' = sol) as -> by congruence.
  destruct (links_of_total resources uuid4 (sol_assignments sol)
              (gr_ProcessElements general_recipe)) as (links & El & Hl & _).
  destruct (transitions_of_total resources uuid4 (sol_assignments sol)
              (gr_ProcessElements general_recipe)) as (ts & Et & Ht & _).
  rewrite <- Hsteps in El, Et, Hl, Ht.
  assert (links = doc_Links doc) as -> by congruence.
  assert (ts = doc_Transitions doc) as -> by congruence.
  rewrite Hsteps at 1. rewrite all_steps_length.
  split; [reflexivity|]. split; [exact Ht|exact Hl].
Qed.

(** C2.  Whenever the generator returns a document, the number of its steps
    is the number of process elements that have a matching assignment in the
    selected solution plus two (Init and End), the number of its transitions
    is the number of steps minus one, and the number of its links is twice
    the number of transitions. *)
Theorem step_transition_link_counts (resources : Resources)
    (uuid4 now : nat -> string) (solutions : list Solution) (id : Z)
    (general_recipe : GeneralRecipe) (sol : Solution) (doc : Document) (id' : Z) :
  find_solution solutions id = Some sol ->
  generate_b2mml_master_recipe resources uuid4 now solutions id general_recipe
  = Ok (doc, id') ->
  length (doc_Steps doc)
  = length (List.filter (has_assignment (sol_assignments sol))
                        (gr_ProcessElements general_recipe)) + 2
  /\ length (doc_Transitions doc) = length (doc_Steps doc) - 1
  /\ length (doc_Links doc) = 2 * length (doc_Transitions doc).
Proof.
  intros Hsol Hgen.
  destruct (procedure_logic_sizes _ _ _ _ _ _ _ _ _ Hsol Hgen) as (Hs & Ht & Hl).
  rewrite assigned_length in Hs.
  split; [exact Hs|]. split; [exact Ht|]. rewrite Ht. exact Hl.
Qed.

Lemma step_transition_link_counts_witness :
  exists doc,
    generate_b2mml_master_recipe Scenarios.plant Scenarios.tokens Scenarios.clock
      [Scenarios.other_solution; Scenarios.water_solution] 4 Scenarios.water_recipe
    = Ok (doc, 4%Z)
    /\ length (doc_Steps doc) = 3 + 2
    /\ length (doc_Transitions doc) = length (doc_Steps doc) - 1
    /\ length (doc_Links doc) = 2 * length (doc_Transitions doc).
Proof.
  eexists. split; [vm_compute; reflexivity|].
  apply (step_transition_link_counts Scenarios.plant Scenarios.tokens Scenarios.clock
           [Scenarios.other_solution; Scenarios.water_solution] 4
           Scenarios.water_recipe Scenarios.water_solution _ 4%Z);
    vm_compute; reflexivity.
Defined.

(** C3.  In a returned document with N steps, the step at index i < N-1
    (counted from 0) is named S(i+1) and gives the two links at positions 2i
    and 2i+1 of the link list: the first from that step to transition T(i+1),
    the second from T(i+1) to the next step, S(i+2).  The list holds nothing
    else, and the link at position k (counted from 0) carries the identifier
    L(k+1). *)
Theorem link_order_and_numbering (resources : Resources)
    (uuid4 now : nat -> string) (solutions : list Solution) (id : Z)
    (general_recipe : GeneralRecipe) (doc : Document) (id' : Z) :
  generate_b2mml_master_recipe resources uuid4 now solutions id general_recipe
  = Ok (doc, id') ->
  (forall i, i < length (doc_Steps doc) - 1 ->
     exists s s',
       doc_Steps doc !! i = Some s
       /\ doc_Steps doc !! (i + 1) = Some s'
       /\ step_id s = "S" +:+ str_of_nat (i + 1)
       /\ step_id s' = "S" +:+ str_of_nat (i + 2)
       /\ doc_Links doc !! (2 * i)
          = Some {| link_ID := "L" +:+ str_of_nat (2 * i + 1);
                    link_FromIDValue := "S" +:+ str_of_nat (i + 1);
                    link_FromType := "Step";
                    link_ToIDValue := "T" +:+ str_of_nat (i + 1);
                    link_ToType := "Transition";
                    link_LinkType := "ControlLink";
                    link_Depiction := "LineAndArrow";
                    link_EvaluationOrder := "1";
                    link_Description := "string" |}
       /\ doc_Links doc !! (2 * i + 1)
          = Some {| link_ID := "L" +:+ str_of_nat (2 * i + 2);
                    link_FromIDValue := "T" +:+ str_of_nat (i + 1);
                    link_FromType := "Transition";
                    link_ToIDValue := "S" +:+ str_of_nat (i + 2);
                    link_ToType := "Step";
                    link_LinkType := "ControlLink";
                    link_Depiction := "LineAndArrow";
                    link_EvaluationOrder := "1";
                    link_Description := "string" |})
  /\ length (doc_Links doc) = 2 * (length (doc_Steps doc) - 1)
  /\ (forall k l, doc_Links doc !! k = Some l -> link_ID l = "L" +:+ str_of_nat (k + 1)).
Proof.
  intros Hgen.
  destruct (generate_Ok _ _ _ _ _ _ _ _ Hgen)
    as (sol & Hsol & _ & _ & Hsteps & Hlinks & _).
  destruct (links_of_total resources uuid4 (sol_assignments sol)
              (gr_ProcessElements general_recipe)) as (links & El & Hl & Hk).
  rewrite <- Hsteps in El, Hl, Hk.
  assert (links = doc_Links doc) as -> by congruence.
  assert (Hpair : forall i, i < length (doc_Steps doc) - 1 ->
            exists s s',
              doc_Steps doc !! i = Some s
              /\ doc_Steps doc !! (i + 1) = Some s'
              /\ step_id s = "S" +:+ str_of_nat (i + 1)
              /\ step_id s' = "S" +:+ str_of_nat (i + 2)
              /\ doc_Links doc !! (2 * i) = Some (step_to_transition (1 + 2 * i) s i)
              /\ doc_Links doc !! (2 * i + 1)
                 = Some (transition_to_step (1 + 2 * i + 1) i s')).
  { intros i Hi.
    destruct (lookup_lt_is_Some_2 (doc_Steps doc) i) as [s Hs]; [lia|].
    destruct (lookup_lt_is_Some_2 (doc_Steps doc) (i + 1)) as [s' Hs']; [lia|].
    exists s, s'. destruct (Hk i s s' Hi Hs Hs') as [K1 K2].
    rewrite Hsteps in Hs, Hs'.
    pose proof (all_steps_id _ _ _ _ _ _ Hs) as I1.
    pose proof (all_steps_id _ _ _ _ _ _ Hs') as I2.
    rewrite <- Hsteps in Hs, Hs'.
    replace (i + 1 + 1) with (i + 2) in I2 by lia. tauto. }
  split; [|split; [exact Hl|]].
  - intros i Hi. destruct (Hpair i Hi) as (s & s' & Hs & Hs' & I1 & I2 & K1 & K2).
    exists s, s'. rewrite K1, K2. unfold step_to_transition, transition_to_step.
    rewrite I1, I2.
    replace (1 + 2 * i) with (2 * i + 1) by lia.
    replace (2 * i + 1 + 1) with (2 * i + 2) by lia. tauto.
  - intros k l Hkl.
    assert (Hlt : k < 2 * (length (doc_Steps doc) - 1)).
    { rewrite <- Hl. apply lookup_lt_Some with l. exact Hkl. }
    destruct (Nat.Even_or_Odd k) as [[i ->]|[i ->]].
    + destruct (Hpair i) as (s & s' & _ & _ & _ & _ & K1 & _); [lia|].
      rewrite K1 in Hkl. injection Hkl as <-. simpl. f_equal. f_equal. lia.
    + destruct (Hpair i) as (s & s' & _ & _ & _ & _ & _ & K2); [lia|].
      rewrite K2 in Hkl. injection Hkl as <-. simpl. f_equal. f_equal. lia.
Qed.

Lemma link_order_and_numbering_witness :
  exists doc,
    generate_b2mml_master_recipe Scenarios.plant Scenarios.tokens Scenarios.clock
      [Scenarios.other_solution; Scenarios.water_solution] 4 Scenarios.water_recipe
    = Ok (doc, 4%Z)
    /\ map (fun l => (link_ID l, link_FromIDValue l, link_ToIDValue l)) (doc_Links doc)
       = [("L1", "S1", "T1"); ("L2", "T1", "S2"); ("L3", "S2", "T2");
          ("L4", "T2", "S3"); ("L5", "S3", "T3"); ("L6", "T3", "S4");
          ("L7", "S4", "T4"); ("L8", "T4", "S5")]
    /\ length (doc_Links doc) = 2 * (length (doc_Steps doc) - 1)
    /\ (forall k l, doc_Links doc !! k = Some l ->
          link_ID l = "L" +:+ str_of_nat (k + 1)).
Proof.
  eexists. split; [vm_compute; reflexivity|]. split; [vm_compute; reflexivity|].
  apply (link_order_and_numbering Scenarios.plant Scenarios.tokens Scenarios.clock
           [Scenarios.other_solution; Scenarios.water_solution] 4
           Scenarios.water_recipe _ 4%Z).
  vm_compute; reflexivity.
Defined.

(** C4, as the generator has it.  In a returned document the guard of
    transition T1 is the text [True], with a capital letter; for every
    i >= 2, the guard of transition Ti is "Step <description> is Completed"
    for the description of step Si, the step from which the link into Ti
    starts, so the step before the transition and not the one after it. *)
Theorem transition_guards (resources : Resources)
    (uuid4 now : nat -> string) (solutions : list Solution) (id : Z)
    (general_recipe : GeneralRecipe) (doc : Document) (id' : Z) :
  generate_b2mml_master_recipe resources uuid4 now solutions id general_recipe
  = Ok (doc, id') ->
  doc_Transitions doc !! 0 = Some {| trans_ID := "T1"; trans_Condition := "True" |}
  /\ (forall i, 2 <= i -> i < length (doc_Steps doc) ->
        exists s l,
          doc_Steps doc !! (i - 1) = Some s
          /\ step_id s = "S" +:+ str_of_nat i
          /\ doc_Links doc !! (2 * (i - 1)) = Some l
          /\ link_FromIDValue l = step_id s
          /\ link_ToIDValue l = "T" +:+ str_of_nat i
          /\ doc_Transitions doc !! (i - 1)
             = Some {| trans_ID := "T" +:+ str_of_nat i;
                       trans_Condition :=
                         "Step " +:+ step_description s +:+ " is Completed" |}).
Proof.
  intros Hgen.
  destruct (generate_Ok _ _ _ _ _ _ _ _ Hgen)
    as (sol & Hsol & _ & _ & Hsteps & Hlinks & Htrans & _).
  destruct (links_of_total resources uuid4 (sol_assignments sol)
              (gr_ProcessElements general_recipe)) as (links & El & _ & Hk).
  destruct (transitions_of_total resources uuid4 (sol_assignments sol)
              (gr_ProcessElements general_recipe)) as (ts & Et & _ & Ht).
  pose proof (all_steps_length resources uuid4 (sol_assignments sol)
                (gr_ProcessElements general_recipe)) as Hlen.
  rewrite <- Hsteps in El, Et, Hk, Ht, Hlen.
  assert (links = doc_Links doc) as -> by congruence.
  assert (ts = doc_Transitions doc) as -> by congruence.
  split.
  - destruct (lookup_lt_is_Some_2 (doc_Steps doc) 0) as [s0 Hs0]; [lia|].
    rewrite (Ht 0 s0); [reflexivity|lia|exact Hs0].
  - intros i Hi Hlt.
    destruct (lookup_lt_is_Some_2 (doc_Steps doc) (i - 1)) as [s Hs]; [lia|].
    destruct (lookup_lt_is_Some_2 (doc_Steps doc) (i - 1 + 1)) as [s' Hs']; [lia|].
    destruct (Hk (i - 1) s s') as [K1 _]; [lia|exact Hs|exact Hs'|].
    exists s, (step_to_transition (1 + 2 * (i - 1)) s (i - 1)).
    split; [exact Hs|]. split.
    { rewrite Hsteps in Hs. rewrite (all_steps_id _ _ _ _ _ _ Hs).
      f_equal. f_equal. lia. }
    split; [exact K1|]. split; [reflexivity|]. split.
    { simpl. f_equal. f_equal. lia. }
    rewrite (Ht (i - 1) s); [|lia|exact Hs].
    replace (1 + (i - 1)) with i by lia.
    destruct (Nat.eqb_spec i 1); [lia|reflexivity].
Qed.

Lemma transition_guards_witness :
  exists doc,
    generate_b2mml_master_recipe Scenarios.plant Scenarios.tokens Scenarios.clock
      [Scenarios.other_solution; Scenarios.water_solution] 4 Scenarios.water_recipe
    = Ok (doc, 4%Z)
    /\ map trans_Condition (doc_Transitions doc)
       = ["True";
          "Step 001:HC10_Mixing_of_Liquids:Mixing is Completed";
          "Step 002:HC20_Dosing:Dosing is Completed";
          "Step 003:HC29_Heating:Heating is Completed"]
    /\ doc_Transitions doc !! 0 = Some {| trans_ID := "T1"; trans_Condition := "True" |}.
Proof.
  eexists. split; [vm_compute; reflexivity|]. split; [vm_compute; reflexivity|].
  apply (transition_guards Scenarios.plant Scenarios.tokens Scenarios.clock
           [Scenarios.other_solution; Scenarios.water_solution] 4
           Scenarios.water_recipe _ 4%Z).
  vm_compute; reflexivity.
Defined.

(** C4 as the specification words it does not hold: the guard of the first
    transition of the Heating document is not the text [true]. *)
Lemma transition_1_guard_is_not_lowercase_true :
  exists doc t,
    generate_b2mml_master_recipe Scenarios.plant Scenarios.tokens Scenarios.clock
      [Scenarios.heating_solution] 4 Scenarios.heating_recipe
    = Ok (doc, 4%Z)
    /\ doc_Transitions doc !! 0 = Some t
    /\ trans_ID t = "T1"
    /\ trans_Condition t <> "true".
Proof.
  eexists. eexists. split; [vm_compute; reflexivity|].
  split; [vm_compute; reflexivity|]. split; [reflexivity|].
  vm_compute. discriminate.
Qed.

(** C8, as the generator has it.  For a recipe of one process element with
    one parameter and a solution that assigns the element, the returned
    document has three steps (Init, the operation, End), two transitions,
    four links and one formula parameter, whose ordinal is 001. *)
Theorem one_element_scenario (resources : Resources)
    (uuid4 now : nat -> string) (solutions : list Solution) (id : Z)
    (general_recipe : GeneralRecipe) (sol : Solution) (pe : ProcessElement)
    (param : RecipeParameter) (doc : Document) (id' : Z) :
  gr_ProcessElements general_recipe = [pe] ->
  pe_Parameters pe = [param] ->
  find_solution solutions id = Some sol ->
  has_assignment (sol_assignments sol) pe = true ->
  generate_b2mml_master_recipe resources uuid4 now solutions id general_recipe
  = Ok (doc, id') ->
  length (doc_Steps doc) = 3
  /\ length (doc_Transitions doc) = 2
  /\ length (doc_Links doc) = 4
  /\ exists fp, doc_Formula doc = [fp] /\ before_colon (fp_ID fp) = "001".
Proof.
  intros Hpes Hparams Hsol Hhas Hgen.
  destruct (procedure_logic_sizes _ _ _ _ _ _ _ _ _ Hsol Hgen) as (Hs & Ht & Hl).
  rewrite assigned_length, Hpes in Hs. simpl in Hs. rewrite Hhas in Hs. simpl in Hs.
  rewrite Hs in Ht, Hl. simpl in Ht, Hl.
  split; [exact Hs|]. split; [exact Ht|]. split; [exact Hl|].
  destruct (generate_Ok _ _ _ _ _ _ _ _ Hgen) as (sol' & Hsol' & _ & Hf & _).
  assert (sol' = sol) as -> by congruence.
  rewrite formula_pass_formula, Hpes in Hf. simpl in Hf.
  rewrite find_assignment_has in Hhas.
  destruct (find_assignment (sol_assignments sol) (pe_ID pe)) as [a|];
    [|discriminate].
  unfold all_params, params_of in Hf. simpl in Hf. rewrite Hparams in Hf.
  simpl in Hf. eexists. split; [exact Hf|]. reflexivity.
Qed.

Lemma one_element_scenario_witness :
  exists doc,
    generate_b2mml_master_recipe Scenarios.plant Scenarios.tokens Scenarios.clock
      [Scenarios.heating_solution] 4 Scenarios.heating_recipe
    = Ok (doc, 4%Z)
    /\ length (doc_Steps doc) = 3
    /\ length (doc_Transitions doc) = 2
    /\ length (doc_Links doc) = 4
    /\ exists fp, doc_Formula doc = [fp] /\ before_colon (fp_ID fp) = "001".
Proof.
  eexists. split; [vm_compute; reflexivity|].
  apply (one_element_scenario Scenarios.plant Scenarios.tokens Scenarios.clock
           [Scenarios.heating_solution] 4 Scenarios.heating_recipe
           Scenarios.heating_solution Scenarios.heating
           Scenarios.heating_temperature _ 4%Z);
    vm_compute; reflexivity.
Defined.

(** C8 as the specification words it does not hold: the Heating document has
    three steps, not five. *)
Lemma heating_document_has_not_5_steps :
  exists doc,
    generate_b2mml_master_recipe Scenarios.plant Scenarios.tokens Scenarios.clock
      [Scenarios.heating_solution] 4 Scenarios.heating_recipe
    = Ok (doc, 4%Z)
    /\ map step_id (doc_Steps doc) = ["S1"; "S2"; "S3"]
    /\ length (doc_Steps doc) <> 5.
Proof.
  eexists. split; [vm_compute; reflexivity|].
  split; [vm_compute; reflexivity|]. vm_compute. discriminate.
Qed.

(** ** Errors *)



(** ** Resolution and formatting of parameters *)



(** C7.  A value string that starts with [>=] or [<=] is compiled to what
    follows these two characters, any other value string to itself; so
    [>=60] gives [60] and [<=5.5] gives [5.5].  The value strings of the
    formula of a returned document are the normalized value strings of the
    parameters of the assigned process elements, in order. *)
Theorem value_normalization :
  (forall rest, normalize_value (">=" +:+ rest) = rest)
  /\ (forall rest, normalize_value ("<=" +:+ rest) = rest)
  /\ (forall s, (forall rest, s <> ">=" +:+ rest) -> (forall rest, s <> "<=" +:+ rest) ->
        normalize_value s = s)
  /\ normalize_value ">=60" = "60"
  /\ normalize_value "<=5.5" = "5.5"
  /\ (forall resources uuid4 now solutions id general_recipe sol doc id',
        find_solution solutions id = Some sol ->
        generate_b2mml_master_recipe resources uuid4 now solutions id general_recipe
        = Ok (doc, id') ->
        map fp_ValueString (doc_Formula doc)
        = map (fun x => normalize_value (param_ValueString x.2))
              (all_params (assigned (sol_assignments sol)
                             (gr_ProcessElements general_recipe)))).
Proof.
  split; [|split; [|split; [|split; [|split]]]]; try reflexivity.
  - intros rest. unfold normalize_value.
    rewrite (proj2 (startswith_iff (">=" +:+ rest) ">=")) by (exists rest; reflexivity).
    apply (drop_chars_append ">=" rest).
  - intros rest. unfold normalize_value.
    rewrite (proj2 (startswith_iff ("<=" +:+ rest) "<=")) by (exists rest; reflexivity).
    rewrite orb_true_r. apply (drop_chars_append "<=" rest).
  - intros s H1 H2. unfold normalize_value.
    destruct (startswith s ">=") eqn:E1.
    { apply startswith_iff in E1 as [rest ->]. destruct (H1 rest eq_refl). }
    destruct (startswith s "<=") eqn:E2.
    { apply startswith_iff in E2 as [rest ->]. destruct (H2 rest eq_refl). }
    reflexivity.
  - intros resources uuid4 now solutions id general_recipe sol doc id' Hsol Hgen.
    destruct (generate_Ok _ _ _ _ _ _ _ _ Hgen) as (sol' & Hsol' & _ & Hf & _).
    assert (sol' = sol) as -> by congruence.
    rewrite Hf, formula_pass_formula.
    generalize 1.
    induction (all_params _) as [|x l IH]; intros c; simpl; [reflexivity|].
    f_equal. rewrite <- (IH (S c)). f_equal. apply imap_ext. intros k y _.
    simpl. f_equal. lia.
Qed.

Lemma value_normalization_witness :
  normalize_value "60" = "60"
  /\ exists doc,
       generate_b2mml_master_recipe Scenarios.plant Scenarios.tokens Scenarios.clock
         [Scenarios.other_solution; Scenarios.water_solution] 4 Scenarios.water_recipe
       = Ok (doc, 4%Z)
       /\ map fp_ValueString (doc_Formula doc) = ["200"; "30"; "5.5"; "60"].
Proof.
  destruct value_normalization as (_ & _ & H3 & _ & _ & H6).
  split.
  - apply H3; intros rest; simpl; discriminate.
  - eexists. split; [vm_compute; reflexivity|].
    rewrite (H6 Scenarios.plant Scenarios.tokens Scenarios.clock
               [Scenarios.other_solution; Scenarios.water_solution] 4%Z
               Scenarios.water_recipe Scenarios.water_solution _ 4%Z);
      vm_compute; reflexivity.
Defined.



(** ** Identifiers *)

(** What the formula and the operations of a returned document are. *)
Lemma document_sections (resources : Resources) (uuid4 now : nat -> string)
    (solutions : list Solution) (id : Z) (general_recipe : GeneralRecipe)
    (sol : Solution) (doc : Document) (id' : Z) :
  find_solution solutions id = Some sol ->
  generate_b2mml_master_recipe resources uuid4 now solutions id general_recipe
  = Ok (doc, id') ->
  let els := assigned (sol_assignments sol) (gr_ProcessElements general_recipe) in
  let anns := issue_all resources uuid4 1 0 els in
  let mapping := param_mapping (formula_pass resources (sol_assignments sol)
                                  (gr_ProcessElements general_recipe)) in
  doc_Formula doc = imap (fun k x => entry resources (1 + k) x) (all_params els)
  /\ doc_Steps doc
     = init_step :: imap (fun k x => operation_step (2 + k) x) anns
         ++ [end_step (2 + length anns)]
  /\ operations doc = map (fun x => operation_element mapping x.1.2 x.1.1 x.2) anns.
Proof.
  intros Hsol Hgen els anns mapping.
  destruct (generate_Ok _ _ _ _ _ _ _ _ Hgen)
    as (sol' & Hsol' & _ & Hf & Hsteps & _ & _ & Hre).
  assert (sol' = sol) as -> by congruence.
  split; [|split].
  - rewrite Hf. apply formula_pass_formula.
  - rewrite Hsteps. apply step_pass_spec.
  - unfold operations. rewrite Hre, recipe_elements_spec. apply filter_operations.
Qed.



(** ** Agreement of the formula and the recipe elements *)






(** * Further properties of the generator and of the optimizer *)

(** ** Units and data types *)

Lemma append_String (c : ascii) (s t : string) :
  String c s +:+ t = String c (s +:+ t).
Proof. reflexivity. Qed.

Lemma append_empty (t : string) : EmptyString +:+ t = t.
Proof. reflexivity. Qed.

Lemma contains_char_snoc (c d : ascii) (s : string) :
  contains_char c (s +:+ String d EmptyString)
  = contains_char c s || Ascii.eqb d c.
Proof.
  induction s as [|e s IH]; rewrite ?append_String, ?append_empty; simpl.
  - rewrite orb_false_r. reflexivity.
  - rewrite IH, orb_assoc. reflexivity.
Qed.

Lemma last_segment_from_no_sep (sep : ascii) (acc s : string) :
  contains_char sep acc = false ->
  contains_char sep (last_segment_from sep acc s) = false.
Proof.
  revert acc. induction s as [|c s IH]; intros acc H; simpl; [exact H|].
  destruct (Ascii.eqb c sep) eqn:E.
  - apply IH. reflexivity.
  - apply IH. rewrite contains_char_snoc, H, E. reflexivity.
Qed.

Lemma append_snoc (acc : string) (c : ascii) (s : string) :
  (acc +:+ String c EmptyString) +:+ s = acc +:+ String c s.
Proof.
  induction acc as [|d acc IH]; [reflexivity|].
  rewrite !append_String, IH. reflexivity.
Qed.

(** What [split(sep)[-1]] is, read from a position inside the string. *)
Lemma last_segment_from_split (sep : ascii) (acc s : string) :
  if contains_char sep s
  then exists pre, s = pre +:+ String sep (last_segment_from sep acc s)
  else last_segment_from sep acc s = acc +:+ s.
Proof.
  revert acc. induction s as [|c s IH]; intros acc; simpl.
  - induction acc as [|d acc IHa]; [reflexivity|].
    rewrite append_String, <- IHa. reflexivity.
  - destruct (Ascii.eqb_spec c sep) as [->|Hne]; simpl.
    + specialize (IH EmptyString). destruct (contains_char sep s).
      * destruct IH as [pre Hpre]. exists (String sep pre).
        rewrite append_String, <- Hpre. reflexivity.
      * exists EmptyString. rewrite append_empty, IH. reflexivity.
    + specialize (IH (acc +:+ String c EmptyString)).
      destruct (contains_char sep s).
      * destruct IH as [pre Hpre]. exists (String c pre).
        rewrite append_String, <- Hpre. reflexivity.
      * rewrite IH. apply append_snoc.
Qed.

(** X1.  [map_unit] never returns a text with a slash: a known unit gives its
    label, any other text gives what follows its last slash, or itself when
    it has none. *)
Theorem map_unit_has_no_slash (unit_uri : string) :
  contains_char "/" (map_unit unit_uri) = false.
Proof.
  unfold map_unit.
  repeat (match goal with
          | |- context [if String.eqb ?a ?b then _ else _] =>
              destruct (String.eqb a b); [reflexivity|]
          end).
  destruct (contains_char "/" unit_uri) eqn:E; [|exact E].
  apply last_segment_from_no_sep. reflexivity.
Qed.

(** X2.  For a unit that is not one of the six known ones, [map_unit] gives
    the text after the last slash, so the unit is some prefix, a slash and
    the result; a unit without a slash is returned as it is. *)
Theorem map_unit_of_unknown_unit (unit_uri : string) :
  ~ In unit_uri
      ["http://si-digital-framework.org/SI/units/second";
       "http://si-digital-framework.org/SI/units/litre";
       "http://si-digital-framework.org/SI/units/degreeCelsius";
       "http://qudt.org/vocab/unit/REV-PER-MIN";
       "http://qudt.org/vocab/unit/PERCENT";
       "http://qudt.org/vocab/unit/CYC-PER-SEC"] ->
  if contains_char "/" unit_uri
  then exists pre, unit_uri = pre +:+ "/" +:+ map_unit unit_uri
  else map_unit unit_uri = unit_uri.
Proof.
  intros H. unfold map_unit.
  repeat (match goal with
          | |- context [if String.eqb ?a ?b then _ else _] =>
              destruct (String.eqb_spec a b) as [E|_];
              [exfalso; apply H; rewrite E; simpl; tauto|]
          end).
  pose proof (last_segment_from_split "/" EmptyString unit_uri) as L.
  unfold last_segment. destruct (contains_char "/" unit_uri); [exact L|reflexivity].
Qed.

Lemma map_unit_of_unknown_unit_witness :
  map_unit "http://example.org/unit/foo" = "foo"
  /\ exists pre, "http://example.org/unit/foo"
                 = pre +:+ "/" +:+ map_unit "http://example.org/unit/foo".
Proof.
  split; [reflexivity|].
  apply (map_unit_of_unknown_unit "http://example.org/unit/foo").
  simpl. intros H. repeat (destruct H as [H|H]; [discriminate H|]). exact H.
Defined.

(** X3.  [map_data_type] is idempotent: the tags it produces are tags it
    leaves alone. *)
Theorem map_data_type_idempotent (json_type : string) :
  map_data_type (map_data_type json_type) = map_data_type json_type.
Proof.
  destruct (String.eqb_spec json_type "xs:int") as [->|N1]; [reflexivity|].
  destruct (String.eqb_spec json_type "xs:double") as [->|N2]; [reflexivity|].
  destruct (String.eqb_spec json_type "int") as [->|N3]; [reflexivity|].
  destruct (String.eqb_spec json_type "double") as [->|N4]; [reflexivity|].
  destruct (String.eqb_spec json_type "duration") as [->|N5]; [reflexivity|].
  assert (E : map_data_type json_type = json_type).
  { unfold map_data_type.
    apply String.eqb_neq in N1, N2, N3, N4, N5.
    rewrite N1, N2, N3, N4, N5. reflexivity. }
  rewrite !E. reflexivity.
Qed.
(** ** Identifiers are distinct *)

Lemma str_of_nat_inj (n m : nat) : str_of_nat n = str_of_nat m -> n = m.
Proof.
  intros H. pose proof (nat_of_str_str_of_nat n) as Hn.
  rewrite H, nat_of_str_str_of_nat in Hn. congruence.
Qed.

(** X4.  [f"{n:03d}"] determines [n]: two counters give the same text only
    when they are equal, and the text never has fewer than three
    characters. *)
Theorem fmt_03d_injective (n m : nat) :
  (fmt_03d n = fmt_03d m -> n = m) /\ 3 <= String.length (fmt_03d n).
Proof.
  split.
  - intros H. pose proof (nat_of_str_fmt_03d n) as Hn.
    rewrite H, nat_of_str_fmt_03d in Hn. congruence.
  - unfold fmt_03d.
    assert (L : forall k s, String.length (replicate_char k "0" +:+ s)
                            = k + String.length s).
    { intros k s. induction k as [|k IH]; [reflexivity|].
      change (S (String.length (replicate_char k "0" +:+ s)) = S k + String.length s).
      rewrite IH. reflexivity. }
    rewrite L. lia.
Qed.

Lemma fmt_03d_injective_witness :
  fmt_03d 7 = "007" /\ 7 = 7 /\ 3 <= String.length (fmt_03d 7).
Proof.
  destruct (fmt_03d_injective 7 7) as [H L].
  split; [reflexivity|]. split; [apply H; reflexivity|exact L].
Defined.

(** A list whose texts carry their own position as ordinal has no
    duplicates. *)
Lemma NoDup_by_ordinal (c : nat) (l : list string) :
  (forall i s, l !! i = Some s -> ordinal_of s = Some (c + i)) -> List.NoDup l.
Proof.
  intros H. apply NoDup_ListNoDup, NoDup_alt. intros i j s Hi Hj.
  pose proof (H i s Hi) as Oi. pose proof (H j s Hj) as Oj.
  rewrite Oi in Oj. injection Oj. lia.
Qed.

Lemma NoDup_by_index (f : nat -> string) (l : list string) :
  (forall i j, f i = f j -> i = j) ->
  (forall i s, l !! i = Some s -> s = f i) -> List.NoDup l.
Proof.
  intros Hf H. apply NoDup_ListNoDup, NoDup_alt. intros i j s Hi Hj.
  apply Hf. rewrite <- (H i s Hi), <- (H j s Hj). reflexivity.
Qed.

Lemma prefixed_inj (p : string) (n m : nat) :
  p +:+ str_of_nat n = p +:+ str_of_nat m -> n = m.
Proof.
  induction p as [|c p IH]; intros H.
  - apply str_of_nat_inj. exact H.
  - apply IH. injection H. tauto.
Qed.

(** X5.  The identifiers of the formula parameters of a returned document
    are pairwise distinct, also when parameters of the recipe share an
    identifier or resolve to the same reference. *)
Theorem formula_identifiers_distinct (resources : Resources)
    (uuid4 now : nat -> string) (solutions : list Solution) (id : Z)
    (general_recipe : GeneralRecipe) (doc : Document) (id' : Z) :
  generate_b2mml_master_recipe resources uuid4 now solutions id general_recipe
  = Ok (doc, id') ->
  List.NoDup (map fp_ID (doc_Formula doc)).
Proof.
  intros Hgen.
  destruct (generate_Ok _ _ _ _ _ _ _ _ Hgen) as (sol & Hsol & _).
  destruct (document_sections _ _ _ _ _ _ _ _ _ Hsol Hgen) as (Hf & _).
  apply (NoDup_by_ordinal 1). intros i s Hi.
  rewrite Hf, list_lookup_fmap, list_lookup_imap in Hi.
  destruct (all_params _ !! i) as [x|]; [|discriminate].
  simpl in Hi. injection Hi as <-. apply ordinal_of_fmt_03d.
Qed.

Lemma formula_identifiers_distinct_witness :
  exists doc,
    generate_b2mml_master_recipe Scenarios.plant Scenarios.tokens Scenarios.clock
      [Scenarios.heating_solution] 4 Scenarios.twin_recipe
    = Ok (doc, 4%Z)
    /\ List.NoDup (map fp_ID (doc_Formula doc)).
Proof.
  eexists. split; [vm_compute; reflexivity|].
  apply (formula_identifiers_distinct Scenarios.plant Scenarios.tokens
           Scenarios.clock [Scenarios.heating_solution] 4 Scenarios.twin_recipe _ 4%Z).
  vm_compute; reflexivity.
Defined.

(** The link at position [k] is named L(k+1). *)
Lemma link_names (resources : Resources) (uuid4 : nat -> string)
    (assignments : list Assignment) (process_elements : list ProcessElement)
    (links : list Link) (k : nat) (l : Link) :
  links_of (all_steps (step_pass resources uuid4 assignments process_elements))
  = Ok links ->
  links !! k = Some l -> link_ID l = "L" +:+ str_of_nat (k + 1).
Proof.
  intros El Hkl.
  destruct (links_of_total resources uuid4 assignments process_elements)
    as (links' & El' & Hl & Hk).
  assert (links' = links) as -> by congruence.
  set (steps := all_steps _) in *.
  assert (Hlt : k < 2 * (length steps - 1)).
  { rewrite <- Hl. apply lookup_lt_Some with l. exact Hkl. }
  destruct (Nat.Even_or_Odd k) as [[i ->]|[i ->]].
  - destruct (lookup_lt_is_Some_2 steps i) as [s Hs]; [lia|].
    destruct (lookup_lt_is_Some_2 steps (i + 1)) as [s' Hs']; [lia|].
    destruct (Hk i s s') as [K1 _]; [lia|assumption..|].
    rewrite K1 in Hkl. injection Hkl as <-. simpl. f_equal. f_equal. lia.
  - destruct (lookup_lt_is_Some_2 steps i) as [s Hs]; [lia|].
    destruct (lookup_lt_is_Some_2 steps (i + 1)) as [s' Hs']; [lia|].
    destruct (Hk i s s') as [_ K2]; [lia|assumption..|].
    rewrite K2 in Hkl. injection Hkl as <-. simpl. f_equal. f_equal. lia.
Qed.

(** X6.  In a returned document the identifiers of the steps, of the
    transitions, of the links and of the recipe elements (the markers Init
    and End included) are each pairwise distinct. *)
Theorem element_identifiers_distinct (resources : Resources)
    (uuid4 now : nat -> string) (solutions : list Solution) (id : Z)
    (general_recipe : GeneralRecipe) (doc : Document) (id' : Z) :
  generate_b2mml_master_recipe resources uuid4 now solutions id general_recipe
  = Ok (doc, id') ->
  List.NoDup (map step_id (doc_Steps doc))
  /\ List.NoDup (map trans_ID (doc_Transitions doc))
  /\ List.NoDup (map link_ID (doc_Links doc))
  /\ List.NoDup (map re_ID (doc_RecipeElements doc)).
Proof.
  intros Hgen.
  destruct (generate_Ok _ _ _ _ _ _ _ _ Hgen)
    as (sol & Hsol & _ & _ & Hsteps & Hlinks & Htrans & Hre).
  destruct (document_sections _ _ _ _ _ _ _ _ _ Hsol Hgen) as (_ & _ & Ho).
  split; [|split; [|split]].
  - apply (NoDup_by_index (fun i => "S" +:+ str_of_nat (i + 1))).
    + intros i j H. apply prefixed_inj in H. lia.
    + intros i s Hi. rewrite list_lookup_fmap in Hi.
      destruct (doc_Steps doc !! i) as [st|] eqn:E; [|discriminate].
      injection Hi as <-. rewrite Hsteps in E.
      apply (all_steps_id _ _ _ _ _ _ E).
  - destruct (transitions_of_total resources uuid4 (sol_assignments sol)
                (gr_ProcessElements general_recipe)) as (ts & Et & Hl & Hk).
    rewrite <- Hsteps in Et, Hl, Hk.
    assert (ts = doc_Transitions doc) as -> by congruence.
    apply (NoDup_by_index (fun i => "T" +:+ str_of_nat (1 + i))).
    + intros i j H. apply prefixed_inj in H. lia.
    + intros i s Hi. rewrite list_lookup_fmap in Hi.
      destruct (doc_Transitions doc !! i) as [t|] eqn:E; [|discriminate].
      injection Hi as <-.
      assert (Hlt : i < length (doc_Steps doc) - 1).
      { rewrite <- Hl. apply lookup_lt_Some with t. exact E. }
      destruct (lookup_lt_is_Some_2 (doc_Steps doc) i) as [st Hst]; [lia|].
      rewrite (Hk i st Hlt Hst) in E. injection E as <-. reflexivity.
  - apply (NoDup_by_index (fun i => "L" +:+ str_of_nat (i + 1))).
    + intros i j H. apply prefixed_inj in H. lia.
    + intros i s Hi. rewrite list_lookup_fmap in Hi.
      destruct (doc_Links doc !! i) as [l|] eqn:E; [|discriminate].
      injection Hi as <-. rewrite Hsteps in Hlinks.
      apply (link_names _ _ _ _ _ _ _ Hlinks E).
  - rewrite Hre, recipe_elements_spec. simpl.
    assert (Hops : forall i s,
               map re_ID (map (fun x : ProcessElement * Assignment * Annotation =>
                                 operation_element
                                   (param_mapping
                                      (formula_pass resources (sol_assignments sol)
                                         (gr_ProcessElements general_recipe)))
                                   x.1.2 x.1.1 x.2)
                              (issue_all resources uuid4 1 0
                                 (assigned (sol_assignments sol)
                                    (gr_ProcessElements general_recipe))))
               !! i = Some s -> ordinal_of s = Some (1 + i)).
    { intros i s Hi. rewrite !list_lookup_fmap in Hi.
      destruct (issue_all _ _ _ _ _ !! i) as [[[pe a] ann]|] eqn:E; [|discriminate].
      simpl in Hi. injection Hi as <-.
      assert (Hel : assigned (sol_assignments sol) (gr_ProcessElements general_recipe)
                    !! i = Some (pe, a)).
      { pose proof (issue_all_elements resources uuid4 1 0
                      (assigned (sol_assignments sol)
                                (gr_ProcessElements general_recipe))) as Hel0.
        apply (f_equal (fun l => l !! i)) in Hel0.
        rewrite list_lookup_fmap, E in Hel0. symmetry. exact Hel0. }
      rewrite (issue_all_lookup resources uuid4 1 0 _ i pe a Hel) in E.
      injection E as <-. simpl. apply ordinal_of_fmt_03d. }
    assert (Hnot : forall s, ordinal_of s = None ->
               ~ In s (map re_ID (map (fun x : ProcessElement * Assignment * Annotation =>
                                 operation_element
                                   (param_mapping
                                      (formula_pass resources (sol_assignments sol)
                                         (gr_ProcessElements general_recipe)))
                                   x.1.2 x.1.1 x.2)
                              (issue_all resources uuid4 1 0
                                 (assigned (sol_assignments sol)
                                    (gr_ProcessElements general_recipe)))))).
    { intros s Hs Hin. apply list_elem_of_In, list_elem_of_lookup in Hin as [i Hi].
      rewrite (Hops i s Hi) in Hs. discriminate. }
    constructor.
    { intros [H|H]; [discriminate H|]. apply (Hnot "Init"); [reflexivity|exact H]. }
    constructor.
    { apply Hnot. reflexivity. }
    apply (NoDup_by_ordinal 1). exact Hops.
Qed.

Lemma element_identifiers_distinct_witness :
  exists doc,
    generate_b2mml_master_recipe Scenarios.plant Scenarios.tokens Scenarios.clock
      [Scenarios.other_solution; Scenarios.water_solution] 4 Scenarios.water_recipe
    = Ok (doc, 4%Z)
    /\ List.NoDup (map step_id (doc_Steps doc))
    /\ List.NoDup (map trans_ID (doc_Transitions doc))
    /\ List.NoDup (map link_ID (doc_Links doc))
    /\ List.NoDup (map re_ID (doc_RecipeElements doc)).
Proof.
  eexists. split; [vm_compute; reflexivity|].
  apply (element_identifiers_distinct Scenarios.plant Scenarios.tokens
           Scenarios.clock [Scenarios.other_solution; Scenarios.water_solution] 4
           Scenarios.water_recipe _ 4%Z).
  vm_compute; reflexivity.
Defined.

Lemma map_imap_ignore {A B C} (g : nat -> A -> B) (f : B -> C) (h : A -> C)
    (l : list A) :
  (forall k x, f (g k x) = h x) -> map f (imap g l) = map h l.
Proof.
  revert g. induction l as [|x l IH]; intros g H; simpl; [reflexivity|].
  rewrite H. f_equal. apply IH. intros k y. apply H.
Qed.

(** X7.  The recipe elements of a returned document are the markers Init and
    End followed by the operations, and the steps reference exactly these
    recipe elements: the first step Init, the last step End, and the steps
    between them the operations, in the order of the operations. *)
Theorem steps_reference_recipe_elements (resources : Resources)
    (uuid4 now : nat -> string) (solutions : list Solution) (id : Z)
    (general_recipe : GeneralRecipe) (doc : Document) (id' : Z) :
  generate_b2mml_master_recipe resources uuid4 now solutions id general_recipe
  = Ok (doc, id') ->
  doc_RecipeElements doc
  = marker "Begin" "Init" :: marker "End" "End" :: operations doc
  /\ map step_recipe_element_id (doc_Steps doc)
     = "Init" :: map re_ID (operations doc) ++ ["End"].
Proof.
  intros Hgen.
  destruct (generate_Ok _ _ _ _ _ _ _ _ Hgen)
    as (sol & Hsol & _ & _ & _ & _ & _ & Hre).
  destruct (document_sections _ _ _ _ _ _ _ _ _ Hsol Hgen) as (_ & Hs & Ho).
  split.
  - rewrite Ho, Hre, recipe_elements_spec. reflexivity.
  - rewrite Hs, Ho, map_cons, map_app, map_map.
    f_equal. f_equal. apply map_imap_ignore. reflexivity.
Qed.

Lemma steps_reference_recipe_elements_witness :
  exists doc,
    generate_b2mml_master_recipe Scenarios.plant Scenarios.tokens Scenarios.clock
      [Scenarios.other_solution; Scenarios.water_solution] 4 Scenarios.water_recipe
    = Ok (doc, 4%Z)
    /\ doc_RecipeElements doc
       = marker "Begin" "Init" :: marker "End" "End" :: operations doc
    /\ map step_recipe_element_id (doc_Steps doc)
       = "Init" :: map re_ID (operations doc) ++ ["End"].
Proof.
  eexists. split; [vm_compute; reflexivity|].
  apply (steps_reference_recipe_elements Scenarios.plant Scenarios.tokens
           Scenarios.clock [Scenarios.other_solution; Scenarios.water_solution] 4
           Scenarios.water_recipe _ 4%Z).
  vm_compute; reflexivity.
Defined.

(** ** The procedure logic is one chain *)

(** X8.  In a returned document with N steps, for every k < N-1 the
    transition at position k lies between the steps at positions k and k+1:
    the link at position 2k leads from that step to that transition and the
    link at position 2k+1 from that transition to the next step.  So the
    endpoints of every link are a step and a transition of the document. *)
Theorem procedure_logic_is_a_chain (resources : Resources)
    (uuid4 now : nat -> string) (solutions : list Solution) (id : Z)
    (general_recipe : GeneralRecipe) (doc : Document) (id' : Z) :
  generate_b2mml_master_recipe resources uuid4 now solutions id general_recipe
  = Ok (doc, id') ->
  forall k, k < length (doc_Steps doc) - 1 ->
    exists s t s' l1 l2,
      doc_Steps doc !! k = Some s
      /\ doc_Transitions doc !! k = Some t
      /\ doc_Steps doc !! (k + 1) = Some s'
      /\ doc_Links doc !! (2 * k) = Some l1
      /\ doc_Links doc !! (2 * k + 1) = Some l2
      /\ link_FromType l1 = "Step" /\ link_FromIDValue l1 = step_id s
      /\ link_ToType l1 = "Transition" /\ link_ToIDValue l1 = trans_ID t
      /\ link_FromType l2 = "Transition" /\ link_FromIDValue l2 = trans_ID t
      /\ link_ToType l2 = "Step" /\ link_ToIDValue l2 = step_id s'.
Proof.
  intros Hgen k Hk.
  destruct (generate_Ok _ _ _ _ _ _ _ _ Hgen)
    as (sol & Hsol & _ & _ & Hsteps & Hlinks & Htrans & _).
  destruct (links_of_total resources uuid4 (sol_assignments sol)
              (gr_ProcessElements general_recipe)) as (links & El & _ & Hl).
  destruct (transitions_of_total resources uuid4 (sol_assignments sol)
              (gr_ProcessElements general_recipe)) as (ts & Et & _ & Ht).
  rewrite <- Hsteps in El, Et, Hl, Ht.
  assert (links = doc_Links doc) as -> by congruence.
  assert (ts = doc_Transitions doc) as -> by congruence.
  destruct (lookup_lt_is_Some_2 (doc_Steps doc) k) as [s Hs]; [lia|].
  destruct (lookup_lt_is_Some_2 (doc_Steps doc) (k + 1)) as [s' Hs']; [lia|].
  destruct (Hl k s s' Hk Hs Hs') as [K1 K2].
  pose proof (Ht k s Hk Hs) as K3.
  eexists s, _, s', _, _.
  split; [exact Hs|]. split; [exact K3|]. split; [exact Hs'|].
  split; [exact K1|]. split; [exact K2|].
  simpl. replace (k + 1) with (1 + k) by lia. repeat split; reflexivity.
Qed.

Lemma procedure_logic_is_a_chain_witness :
  exists doc,
    generate_b2mml_master_recipe Scenarios.plant Scenarios.tokens Scenarios.clock
      [Scenarios.other_solution; Scenarios.water_solution] 4 Scenarios.water_recipe
    = Ok (doc, 4%Z)
    /\ exists s t s' l1 l2,
         doc_Steps doc !! 2 = Some s
         /\ doc_Transitions doc !! 2 = Some t
         /\ doc_Steps doc !! (2 + 1) = Some s'
         /\ doc_Links doc !! (2 * 2) = Some l1
         /\ doc_Links doc !! (2 * 2 + 1) = Some l2
         /\ link_FromType l1 = "Step" /\ link_FromIDValue l1 = step_id s
         /\ link_ToType l1 = "Transition" /\ link_ToIDValue l1 = trans_ID t
         /\ link_FromType l2 = "Transition" /\ link_FromIDValue l2 = trans_ID t
         /\ link_ToType l2 = "Step" /\ link_ToIDValue l2 = step_id s'.
Proof.
  eexists. split; [vm_compute; reflexivity|].
  apply (procedure_logic_is_a_chain Scenarios.plant Scenarios.tokens
           Scenarios.clock [Scenarios.other_solution; Scenarios.water_solution] 4
           Scenarios.water_recipe _ 4%Z);
    [vm_compute; reflexivity|vm_compute; lia].
Defined.

(** ** The parameter mapping *)

Lemma alloc_mapping_None (resources : Resources)
    (l : list (ProcessElement * Assignment * RecipeParameter))
    (st : ParamState) (id : string) :
  param_mapping (fold_left (alloc resources) l st) !! id = None
  <-> param_mapping st !! id = None /\ ~ In id (map pid l).
Proof.
  revert st. induction l as [|x l IH]; intros st; simpl.
  - split; [intros H; split; [exact H|intros []]|intros [H _]; exact H].
  - rewrite IH. simpl.
    destruct (String.eqb_spec (param_ID x.2) id) as [E|Hne].
    + rewrite E, lookup_insert_eq. split; [intros [H _]; discriminate|].
      intros [_ H]. exfalso. apply H. left. exact E.
    + rewrite lookup_insert_ne by exact Hne. split.
      * intros [H1 H2]. split; [exact H1|]. intros [H|H]; [exact (Hne H)|exact (H2 H)].
      * intros [H1 H2]. split; [exact H1|]. intros H. apply H2. right. exact H.
Qed.

Lemma alloc_mapping_last (resources : Resources)
    (l : list (ProcessElement * Assignment * RecipeParameter))
    (st : ParamState) (k : nat) (x : ProcessElement * Assignment * RecipeParameter) :
  l !! k = Some x ->
  (forall k' x', k < k' -> l !! k' = Some x' -> pid x' <> pid x) ->
  param_mapping (fold_left (alloc resources) l st) !! pid x
  = Some (fid resources (global_param_counter st + k) x).
Proof.
  revert st k. induction l as [|y l IH]; intros st k Hk Hlast; [discriminate|].
  destruct k as [|k]; simpl in *.
  - injection Hk as ->. rewrite alloc_mapping_other.
    + simpl. rewrite Nat.add_0_r. apply lookup_insert_eq.
    + intros Hin. apply in_map_iff in Hin as (x' & E & Hin).
      apply list_elem_of_In, list_elem_of_lookup in Hin as [i Hi].
      apply (Hlast (S i) x'); [lia|exact Hi|exact E].
  - rewrite (IH _ k Hk).
    + simpl. f_equal. f_equal. lia.
    + intros k' x' Hlt Hk'. apply (Hlast (S k') x'); [lia|exact Hk'].
Qed.

(** Every identifier that occurs is mapped to the identifier formatted for
    one of the parameters that carry it. *)
Lemma alloc_mapping_some (resources : Resources)
    (l : list (ProcessElement * Assignment * RecipeParameter))
    (st : ParamState) (id : string) :
  In id (map pid l) ->
  exists k x, l !! k = Some x /\ pid x = id
    /\ param_mapping (fold_left (alloc resources) l st) !! id
       = Some (fid resources (global_param_counter st + k) x).
Proof.
  revert st. induction l as [|y l IH]; intros st Hin; [destruct Hin|].
  destruct (in_dec string_dec id (map pid l)) as [Hl|Hl].
  - destruct (IH (alloc resources st y) Hl) as (k & x & Hk & Hx & Hm).
    exists (S k), x. split; [exact Hk|]. split; [exact Hx|].
    simpl. rewrite Hm. simpl. f_equal. f_equal. lia.
  - destruct Hin as [<-|Hin]; [|contradiction].
    exists 0, y. split; [reflexivity|]. split; [reflexivity|].
    simpl. rewrite alloc_mapping_other by exact Hl.
    simpl. rewrite Nat.add_0_r. apply lookup_insert_eq.
Qed.

(** X9.  After the formula pass the mapping knows exactly the identifiers of
    the parameters of the assigned process elements, and it maps an
    identifier to the formula identifier allocated for the last parameter
    that carries it. *)
Theorem last_allocation_wins (resources : Resources)
    (assignments : list Assignment) (process_elements : list ProcessElement) :
  let l := all_params (assigned assignments process_elements) in
  let mapping := param_mapping (formula_pass resources assignments process_elements) in
  (forall id, mapping !! id = None <-> ~ In id (map pid l))
  /\ (forall k x, l !! k = Some x ->
        (forall k' x', k < k' -> l !! k' = Some x' -> param_ID x'.2 <> param_ID x.2) ->
        mapping !! param_ID x.2
        = Some (formatted_param_id resources (1 + k) x.1.1 x.1.2 x.2)).
Proof.
  intros l mapping. unfold mapping, formula_pass. rewrite fold_elements. split.
  - intros id. rewrite alloc_mapping_None. simpl. rewrite lookup_empty. tauto.
  - intros k x Hk Hlast.
    apply (alloc_mapping_last resources _ initial_param_state k x Hk Hlast).
Qed.

Lemma last_allocation_wins_witness :
  param_mapping (formula_pass Scenarios.plant
                   (sol_assignments Scenarios.heating_solution)
                   (gr_ProcessElements Scenarios.twin_recipe)) !! "P"
  = Some "002:hc29_temperature_setpoint"
  /\ param_mapping (formula_pass Scenarios.plant
                      (sol_assignments Scenarios.water_solution)
                      (gr_ProcessElements Scenarios.water_recipe)) !! "Cooling_Temp001"
     = None.
Proof.
  destruct (last_allocation_wins Scenarios.plant
              (sol_assignments Scenarios.heating_solution)
              (gr_ProcessElements Scenarios.twin_recipe)) as [_ H].
  destruct (last_allocation_wins Scenarios.plant
              (sol_assignments Scenarios.water_solution)
              (gr_ProcessElements Scenarios.water_recipe)) as [N _].
  split.
  - refine (eq_trans (H 1 _ eq_refl _) _); [|vm_compute; reflexivity].
    intros [|[|k']] x' Hlt Hk'; [lia|lia|discriminate Hk'].
  - apply N. vm_compute. intros H'.
    repeat (destruct H' as [H'|H']; [discriminate H'|]). exact H'.
Defined.

Lemma parameter_refs_total (mapping : gmap string string)
    (params : list RecipeParameter) (P : string -> Prop) :
  (forall p, In p params -> exists v, mapping !! param_ID p = Some v /\ P v) ->
  length (parameter_refs mapping params) = length params
  /\ forall r, In r (parameter_refs mapping params) -> P r.
Proof.
  induction params as [|p params IH]; intros H; simpl.
  - split; [reflexivity|intros r []].
  - destruct (H p (or_introl eq_refl)) as (v & -> & Hv).
    destruct IH as [IH1 IH2]; [intros q Hq; apply H; right; exact Hq|].
    split; [simpl; rewrite IH1; reflexivity|].
    intros r [<-|Hr]; [exact Hv|apply IH2; exact Hr].
Qed.

(** X10.  In a returned document every operation carries one parameter
    reference for each parameter of its process element, and every reference
    is the identifier of a formula parameter of the document, also when
    parameters share an identifier. *)
Theorem references_are_formula_identifiers (resources : Resources)
    (uuid4 now : nat -> string) (solutions : list Solution) (id : Z)
    (general_recipe : GeneralRecipe) (sol : Solution) (doc : Document) (id' : Z) :
  find_solution solutions id = Some sol ->
  generate_b2mml_master_recipe resources uuid4 now solutions id general_recipe
  = Ok (doc, id') ->
  forall j pe a re,
    assigned (sol_assignments sol) (gr_ProcessElements general_recipe) !! j
    = Some (pe, a) ->
    operations doc !! j = Some re ->
    length (re_Parameters re) = length (pe_Parameters pe)
    /\ forall r, In r (re_Parameters re) -> In r (map fp_ID (doc_Formula doc)).
Proof.
  intros Hsol Hgen j pe a re Hj Hre.
  destruct (document_sections _ _ _ _ _ _ _ _ _ Hsol Hgen) as (Hf & _ & Ho).
  rewrite Ho, list_lookup_fmap,
    (issue_all_lookup resources uuid4 1 0 _ j pe a Hj) in Hre.
  injection Hre as <-. simpl.
  apply parameter_refs_total. intros p Hp.
  set (els := assigned (sol_assignments sol) (gr_ProcessElements general_recipe)) in *.
  assert (Hin : In (param_ID p) (map pid (all_params els))).
  { apply in_map_iff. exists (pe, a, p). split; [reflexivity|].
    unfold all_params. apply in_flat_map. exists (pe, a). split.
    - apply list_elem_of_In, list_elem_of_lookup. exists j. exact Hj.
    - unfold params_of. simpl. apply in_map. exact Hp. }
  unfold formula_pass. rewrite fold_elements. fold els.
  destruct (alloc_mapping_some resources (all_params els) initial_param_state
              (param_ID p) Hin) as (k & x & Hk & _ & Hm).
  eexists. split; [exact Hm|].
  apply list_elem_of_In, list_elem_of_lookup. exists k.
  rewrite Hf, list_lookup_fmap, list_lookup_imap. fold els. rewrite Hk. reflexivity.
Qed.

Lemma references_are_formula_identifiers_witness :
  exists doc re,
    generate_b2mml_master_recipe Scenarios.plant Scenarios.tokens Scenarios.clock
      [Scenarios.heating_solution] 4 Scenarios.twin_recipe
    = Ok (doc, 4%Z)
    /\ operations doc !! 0 = Some re
    /\ length (re_Parameters re) = 2
    /\ forall r, In r (re_Parameters re) -> In r (map fp_ID (doc_Formula doc)).
Proof.
  eexists. eexists. split; [vm_compute; reflexivity|].
  split; [vm_compute; reflexivity|].
  apply (references_are_formula_identifiers Scenarios.plant Scenarios.tokens
           Scenarios.clock [Scenarios.heating_solution] 4 Scenarios.twin_recipe
           Scenarios.heating_solution _ 4%Z eq_refl eq_refl 0 _
           Scenarios.heating_assignment _ eq_refl eq_refl).
Defined.

(** ** Process elements without assignment *)

(** X11.  The step pass warns once for every process element without
    assignment, in recipe order, and for no other. *)
Theorem warnings_name_the_unassigned (resources : Resources)
    (uuid4 : nat -> string) (assignments : list Assignment)
    (process_elements : list ProcessElement) :
  warnings (step_pass resources uuid4 assignments process_elements)
  = map (fun pe => "Warning: No assignment found for process element " +:+ pe_ID pe)
        (List.filter (fun pe => negb (has_assignment assignments pe)) process_elements).
Proof.
  unfold step_pass.
  assert (G : forall st,
             warnings (fold_left (add_step resources uuid4 assignments)
                         process_elements st)
             = warnings st
               ++ map (fun pe => "Warning: No assignment found for process element "
                                   +:+ pe_ID pe)
                      (List.filter (fun pe => negb (has_assignment assignments pe))
                                   process_elements)).
  { induction process_elements as [|pe pes IH]; intros st; simpl.
    - rewrite app_nil_r. reflexivity.
    - rewrite IH, find_assignment_has. unfold add_step.
      destruct (find_assignment assignments (pe_ID pe)) as [a|]; simpl.
      + destruct (issue_recipe_element_id _ _ _ _ _). reflexivity.
      + rewrite <- app_assoc. reflexivity. }
  rewrite G. reflexivity.
Qed.

(** X12.  The capability name of a step is never the empty text: it is the
    first non-empty capability name of the capability details of the
    assignment, and [Unknown] when there is none. *)
Theorem capability_name_is_never_empty (details : list CapabilityDetail) :
  let c := first_capability_name details "Unknown" in
  truthy c = true
  /\ (c = "Unknown" \/ In c (map cd_capability_name details))
  /\ ((forall cd, In cd details -> cd_capability_name cd = "") -> c = "Unknown")
  /\ (forall pre cd post,
        details = pre ++ cd :: post ->
        (forall cd', In cd' pre -> cd_capability_name cd' = "") ->
        cd_capability_name cd <> "" ->
        c = cd_capability_name cd).
Proof.
  simpl. induction details as [|cd details (I1 & I2 & I3 & I4)]; simpl.
  - split; [reflexivity|]. split; [left; reflexivity|]. split; [reflexivity|].
    intros [|? ?] ? ? H; discriminate H.
  - destruct (truthy (cd_capability_name cd)) eqn:E.
    + split; [exact E|]. split; [right; left; reflexivity|]. split.
      * intros H. rewrite (H cd (or_introl eq_refl)) in E. discriminate E.
      * intros [|cd0 pre] cd' post Hd Hpre Hne.
        -- injection Hd as E1 _. rewrite E1. reflexivity.
        -- injection Hd as E1 _. rewrite E1, (Hpre cd0 (or_introl eq_refl)) in E.
           discriminate E.
    + assert (E0 : cd_capability_name cd = "").
      { destruct (cd_capability_name cd); [reflexivity|discriminate E]. }
      split; [exact I1|]. split; [destruct I2; [left|right; right]; assumption|].
      split.
      * intros H. apply I3. intros cd' Hcd'. apply H. right. exact Hcd'.
      * intros [|cd0 pre] cd' post Hd Hpre Hne.
        -- injection Hd as E1 _. rewrite E1 in E0. contradiction.
        -- injection Hd as _ E2. apply (I4 pre cd' post E2); [|exact Hne].
           intros cd'' H''. apply Hpre. right. exact H''.
Qed.

Lemma capability_name_is_never_empty_witness :
  first_capability_name
    [{| cd_capability_name := ""; cd_matched_properties := [] |};
     {| cd_capability_name := "Heating"; cd_matched_properties := [] |}] "Unknown"
  = "Heating"
  /\ first_capability_name
       [{| cd_capability_name := ""; cd_matched_properties := [] |}] "Unknown"
     = "Unknown".
Proof.
  split.
  - apply (proj2 (proj2 (proj2 (capability_name_is_never_empty _)))
             [{| cd_capability_name := ""; cd_matched_properties := [] |}]
             {| cd_capability_name := "Heating"; cd_matched_properties := [] |} []
             eq_refl).
    + intros cd' [<-|[]]. reflexivity.
    + simpl. discriminate.
  - apply (proj1 (proj2 (proj2 (capability_name_is_never_empty _)))).
    intros cd [<-|[]]. reflexivity.
Defined.

(** X13.  Of several assignments with the same [step_id] the first one is
    the assignment of the process element; there is none exactly when no
    assignment carries the identifier. *)
Theorem first_assignment_wins (assignments : list Assignment) (id : string) :
  (forall a, find_assignment assignments id = Some a <->
     exists pre post,
       assignments = pre ++ a :: post /\ a_step_id a = id
       /\ forall b, In b pre -> a_step_id b <> id)
  /\ (find_assignment assignments id = None <->
      forall b, In b assignments -> a_step_id b <> id).
Proof.
  induction assignments as [|a0 l [IH1 IH2]]; simpl.
  - split.
    + intros a. split; [discriminate|]. intros ([|? ?] & ? & H & _); discriminate H.
    + split; [intros _ b []|reflexivity].
  - destruct (String.eqb_spec (a_step_id a0) id) as [E|N].
    + split.
      * intros a. split.
        -- intros [= <-]. exists [], l. split; [reflexivity|]. split; [exact E|].
           intros b [].
        -- intros ([|b pre] & post & Hl & Ha & Hpre).
           ++ injection Hl as -> _. reflexivity.
           ++ injection Hl as -> _. destruct (Hpre b (or_introl eq_refl) E).
      * split; [discriminate|]. intros H. destruct (H a0 (or_introl eq_refl) E).
    + split.
      * intros a. rewrite IH1. split.
        -- intros (pre & post & -> & Ha & Hpre). exists (a0 :: pre), post.
           split; [reflexivity|]. split; [exact Ha|].
           intros b [<-|Hb]; [exact N|apply Hpre; exact Hb].
        -- intros ([|b pre] & post & Hl & Ha & Hpre).
           ++ injection Hl as -> _. contradiction.
           ++ injection Hl as -> ->. exists pre, post. split; [reflexivity|].
              split; [exact Ha|]. intros b' Hb'. apply Hpre. right. exact Hb'.
      * rewrite IH2. split.
        -- intros H b [<-|Hb]; [exact N|apply H; exact Hb].
        -- intros H b Hb. apply H. right. exact Hb.
Qed.

Lemma first_assignment_wins_witness :
  find_assignment
    [Scenarios.mixing_assignment; Scenarios.heating_assignment;
     {| a_step_id := "Heating001"; a_resource := "resource: 2025-04_HC30";
        a_capabilities := []; a_capability_details := [] |}] "Heating001"
  = Some Scenarios.heating_assignment
  /\ find_assignment [Scenarios.mixing_assignment] "Heating001" = None.
Proof.
  split.
  - apply (proj1 (first_assignment_wins _ "Heating001")).
    exists [Scenarios.mixing_assignment]. eexists.
    split; [reflexivity|]. split; [reflexivity|].
    intros b [<-|[]]. simpl. discriminate.
  - apply (proj2 (first_assignment_wins _ "Heating001")).
    intros b [<-|[]]. simpl. discriminate.
Defined.

(** ** The generic matching of a parameter *)

Lemma match_properties_find (resources : Resources) (a : Assignment)
    (cd : CapabilityDetail) (matched : list MatchedProperty)
    (param : RecipeParameter) (param_id : option string) :
  match_properties resources a cd matched param param_id
  = match List.find (Matching.key_and_unit_match param) matched with
    | Some mp =>
        find_property_realized_by resources (a_resource a)
          (cd_capability_name cd) (mp_property_name mp)
    | None => param_id
    end.
Proof.
  induction matched as [|mp matched IH]; simpl; [reflexivity|].
  unfold Matching.key_and_unit_match at 1.
  destruct (String.eqb (mp_property_id mp) (param_Key param)
            && String.eqb (mp_property_unit mp) (param_UnitOfMeasure param));
    [reflexivity|exact IH].
Qed.

Lemma match_details_first (resources : Resources) (a : Assignment)
    (details : list CapabilityDetail) (param : RecipeParameter)
    (param_id : option string) :
  truthy_opt param_id = false ->
  param_id_or_null (match_details resources a details param param_id)
  = Matching.first_reference resources a param details.
Proof.
  unfold Matching.first_reference.
  revert param_id. induction details as [|cd details IH]; intros param_id H; simpl.
  - destruct param_id as [s|]; [|reflexivity]. simpl in H. simpl. rewrite H.
    reflexivity.
  - rewrite match_properties_find. unfold Matching.detail_reference at 1.
    destruct (List.find _ (cd_matched_properties cd)) as [mp|].
    + destruct (find_property_realized_by _ _ _ _) as [r|] eqn:E; simpl.
      * destruct (truthy r) eqn:T; simpl; [rewrite T; reflexivity|].
        apply IH. exact T.
      * apply IH. reflexivity.
    + rewrite H. apply IH. exact H.
Qed.

(** X14.  For a parameter on the generic path the reference in its formula
    identifier is the first non-empty one among the resolutions that the
    capability details of the assignment give, each detail contributing the
    resolution of its first matched property whose id and unit are the key
    and unit of the parameter; it is [null] when there is none.  A later
    matched property of the same capability detail is never consulted. *)
Theorem generic_matching (resources : Resources) (c : nat) (pe : ProcessElement)
    (a : Assignment) (param : RecipeParameter) :
  ~ (pe_ID pe = "Dosing001" /\ param_ID param = "Dosing_Amount001") ->
  formatted_param_id resources c pe a param
  = fmt_03d c +:+ ":" +:+
      Matching.first_reference resources a param (a_capability_details a).
Proof.
  intros H. unfold formatted_param_id, resolve_param_id, is_dosing.
  destruct (String.eqb_spec (pe_ID pe) "Dosing001") as [E1|];
    [destruct (String.eqb_spec (param_ID param) "Dosing_Amount001") as [E2|];
       [destruct (H (conj E1 E2))|]|];
    simpl; rewrite match_details_first by reflexivity; reflexivity.
Qed.

Lemma generic_matching_witness :
  formatted_param_id Scenarios.plant 3 Scenarios.heating
    {| a_step_id := "Heating001";
       a_resource := "resource: 2025-04_HC29";
       a_capabilities := ["Heating"];
       a_capability_details :=
         [{| cd_capability_name := "Heating";
             cd_matched_properties :=
               [{| mp_property_id := "Temp"; mp_property_name := "pressure";
                   mp_property_unit := Scenarios.celsius |};
                {| mp_property_id := "Temp"; mp_property_name := "temperature";
                   mp_property_unit := Scenarios.celsius |}] |}] |}
    Scenarios.heating_temperature
  = "003:null".
Proof.
  rewrite generic_matching; [vm_compute; reflexivity|].
  intros [E _]. discriminate E.
Defined.

(** ** Edge cases of the whole function *)




(** X16.  The document depends on the list of solutions only through the
    first solution that carries the selected identifier: the other solutions
    of the list, also later ones with the same identifier, change nothing. *)
Theorem only_the_selected_solution_counts (resources : Resources)
    (uuid4 now : nat -> string) (solutions : list Solution) (id : Z)
    (general_recipe : GeneralRecipe) (sol : Solution) :
  find_solution solutions id = Some sol ->
  generate_b2mml_master_recipe resources uuid4 now solutions id general_recipe
  = generate_b2mml_master_recipe resources uuid4 now [sol] id general_recipe.
Proof.
  intros H. unfold generate_b2mml_master_recipe. rewrite H.
  destruct (find_solution_In _ _ _ H) as [_ E]. simpl.
  rewrite (proj2 (Z.eqb_eq _ _) E). reflexivity.
Qed.

Lemma only_the_selected_solution_counts_witness :
  generate_b2mml_master_recipe Scenarios.plant Scenarios.tokens Scenarios.clock
    [Scenarios.other_solution; Scenarios.water_solution; Scenarios.heating_solution]
    4 Scenarios.water_recipe
  = generate_b2mml_master_recipe Scenarios.plant Scenarios.tokens Scenarios.clock
      [Scenarios.water_solution] 4 Scenarios.water_recipe.
Proof.
  apply (only_the_selected_solution_counts Scenarios.plant Scenarios.tokens
           Scenarios.clock
           [Scenarios.other_solution; Scenarios.water_solution;
            Scenarios.heating_solution] 4 Scenarios.water_recipe
           Scenarios.water_solution).
  reflexivity.
Defined.

(** X17.  In a returned document the step and the recipe element of the
    [j]-th assigned process element describe the same equipment and the same
    capability: both descriptions start from the short name of the assigned
    resource and end with the capability name of the assignment, and the
    equipment identifier is that short name followed by [Instance]. *)
Theorem operation_descriptions (resources : Resources)
    (uuid4 now : nat -> string) (solutions : list Solution) (id : Z)
    (general_recipe : GeneralRecipe) (sol : Solution) (doc : Document) (id' : Z) :
  find_solution solutions id = Some sol ->
  generate_b2mml_master_recipe resources uuid4 now solutions id general_recipe
  = Ok (doc, id') ->
  forall j pe a,
    assigned (sol_assignments sol) (gr_ProcessElements general_recipe) !! j
    = Some (pe, a) ->
    exists s re,
      doc_Steps doc !! (j + 1) = Some s
      /\ operations doc !! j = Some re
      /\ step_description s
         = fmt_03d (j + 1) +:+ ":" +:+ resource_short a +:+ "_" +:+ pe_Description pe
             +:+ ":" +:+ first_capability_name (a_capability_details a) "Unknown"
      /\ re_Description re
         = Some (resource_short a +:+ "_" +:+ pe_short (pe_Description pe)
                   +:+ "_Procedure:"
                   +:+ first_capability_name (a_capability_details a) "Unknown")
      /\ re_ActualEquipmentID re = Some (resource_short a +:+ "Instance")
      /\ re_RecipeElementType re = "Operation".
Proof.
  intros Hsol Hgen j pe a Hj.
  destruct (document_sections _ _ _ _ _ _ _ _ _ Hsol Hgen) as (_ & Hs & Ho).
  pose proof (issue_all_lookup resources uuid4 1 0 _ j pe a Hj) as Ha.
  eexists. eexists. split.
  { rewrite Hs. replace (j + 1) with (S j) by lia. simpl.
    rewrite lookup_app_l.
    - rewrite list_lookup_imap, Ha. reflexivity.
    - rewrite length_imap, issue_all_length. apply lookup_lt_Some with (pe, a).
      exact Hj. }
  split.
  { rewrite Ho, list_lookup_fmap, Ha. reflexivity. }
  simpl. unfold step_description_of. simpl.
  replace (S j) with (j + 1) by lia. repeat split; reflexivity.
Qed.

Lemma operation_descriptions_witness :
  exists doc,
    generate_b2mml_master_recipe Scenarios.plant Scenarios.tokens Scenarios.clock
      [Scenarios.other_solution; Scenarios.water_solution] 4 Scenarios.water_recipe
    = Ok (doc, 4%Z)
    /\ map step_description (doc_Steps doc)
       = ["Init"; "001:HC10_Mixing_of_Liquids:Mixing"; "002:HC20_Dosing:Dosing";
          "003:HC29_Heating:Heating"; "End"]
    /\ map re_Description (operations doc)
       = [Some "HC10_Mixing_Procedure:Mixing"; Some "HC20_Dosing_Procedure:Dosing";
          Some "HC29_Heating_Procedure:Heating"]
    /\ exists s re,
         doc_Steps doc !! (0 + 1) = Some s
         /\ operations doc !! 0 = Some re
         /\ step_description s = "001:HC10_Mixing_of_Liquids:Mixing"
         /\ re_ActualEquipmentID re = Some "HC10Instance".
Proof.
  eexists. split; [vm_compute; reflexivity|].
  split; [vm_compute; reflexivity|]. split; [vm_compute; reflexivity|].
  destruct (operation_descriptions Scenarios.plant Scenarios.tokens Scenarios.clock
              [Scenarios.other_solution; Scenarios.water_solution] 4
              Scenarios.water_recipe Scenarios.water_solution _ 4%Z
              eq_refl eq_refl 0 Scenarios.mixing Scenarios.mixing_assignment eq_refl)
    as (s & re & H1 & H2 & H3 & _ & H5 & _).
  exists s, re. split; [exact H1|]. split; [exact H2|].
  split; [rewrite H3; vm_compute; reflexivity|rewrite H5; vm_compute; reflexivity].
Defined.

(** ** The links of the earlier draft *)

Lemma map_seq_ext {A} (f g : nat -> A) (a b n : nat) :
  (forall j, j < n -> f (a + j) = g (b + j)) ->
  map f (seq a n) = map g (seq b n).
Proof.
  revert a b. induction n as [|n IH]; intros a b H; simpl; [reflexivity|].
  f_equal.
  - specialize (H 0). rewrite !Nat.add_0_r in H. apply H. lia.
  - apply IH. intros j Hj. specialize (H (S j)).
    replace (S a + j) with (a + S j) by lia.
    replace (S b + j) with (b + S j) by lia. apply H. lia.
Qed.

(** The two loops of the draft and the loop of the generator, run over the
    same indices. *)
Lemma draft_and_generator_links (steps : list Step) (indices : list nat) (c : nat) :
  (forall i, In i indices -> i + 1 < length steps) ->
  exists gl d1 d2,
    make_links steps indices c = Ok gl
    /\ Draft.make_step_links steps indices = Ok d1
    /\ Draft.make_transition_links steps (map S indices) = Ok d2
    /\ Permutation (map Draft.connection (d1 ++ d2)) (map Draft.connection gl)
    /\ map link_ID d1 = map (fun i => "L" +:+ str_of_nat (i + 1)) indices
    /\ map link_ID d2
       = map (fun i => "L" +:+ str_of_nat (length steps + i - 1)) (map S indices)
    /\ length gl = 2 * length indices.
Proof.
  revert c. induction indices as [|i indices IH]; intros c H.
  - exists [], [], []. repeat split; constructor.
  - destruct (IH (c + 1 + 1)) as (gl & d1 & d2 & E1 & E2 & E3 & P & I1 & I2 & L).
    { intros j Hj. apply H. right. exact Hj. }
    pose proof (H i (or_introl eq_refl)) as Hi.
    destruct (index_in_range steps i) as (s & Hs & Es); [lia|].
    destruct (index_in_range steps (i + 1)) as (s' & Hs' & Es'); [lia|].
    assert (Es'' : index steps (S i) = Ok s').
    { rewrite <- Es'. f_equal. lia. }
    cbn [make_links Draft.make_step_links Draft.make_transition_links map].
    rewrite Es, Es', Es'', E1, E2, E3.
    eexists. eexists. eexists.
    split; [reflexivity|]. split; [reflexivity|]. split; [reflexivity|].
    split; [|split; [|split]].
    + cbn [app map]. rewrite map_app in *. cbn [map].
      apply perm_skip.
      replace (Draft.connection (transition_to_step (c + 1) i s'))
        with (Draft.connection
                {| link_ID := "L" +:+ str_of_nat (length steps + S i - 1);
                   link_FromIDValue := "T" +:+ str_of_nat (S i);
                   link_FromType := "Transition";
                   link_ToIDValue := step_id s';
                   link_ToType := "Step";
                   link_LinkType := "ControlLink";
                   link_Depiction := "LineAndArrow";
                   link_EvaluationOrder := "1";
                   link_Description := "string" |}).
      * symmetry. apply Permutation_cons_app. symmetry. exact P.
      * unfold Draft.connection, transition_to_step. simpl.
        replace (i + 1) with (S i) by lia. reflexivity.
    + cbn [map]. rewrite I1. reflexivity.
    + cbn [map]. rewrite I2. reflexivity.
    + cbn [length]. rewrite L. lia.
Qed.

(** X18.  The earlier draft of the generator in Optimization.py connects the
    steps and transitions exactly as the generator does: for every list of
    steps its links are, up to their order and identifiers, the links of the
    generator.  It emits the links from steps before the links from
    transitions, and like the generator it names the [k]-th emitted link
    L(k+1). *)
Theorem draft_links_connect_alike (steps : list Step) :
  exists dl gl,
    Draft.links_of steps = Ok dl
    /\ links_of steps = Ok gl
    /\ Permutation (map Draft.connection dl) (map Draft.connection gl)
    /\ map link_ID dl = map (fun k => "L" +:+ str_of_nat (k + 1)) (seq 0 (length dl))
    /\ map link_FromType dl
       = repeat "Step" (length steps - 1) ++ repeat "Transition" (length steps - 1).
Proof.
  destruct (draft_and_generator_links steps (seq 0 (length steps - 1)) 1)
    as (gl & d1 & d2 & E1 & E2 & E3 & P & I1 & I2 & L).
  { intros i Hi. apply in_seq in Hi. lia. }
  rewrite seq_shift in E3, I2.
  exists (d1 ++ d2), gl. unfold Draft.links_of, links_of.
  rewrite E1, E2, E3. split; [reflexivity|]. split; [reflexivity|].
  split; [exact P|].
  assert (L1 : length d1 = length steps - 1).
  { rewrite <- (length_map link_ID), I1, length_map, length_seq. reflexivity. }
  assert (L2 : length d2 = length steps - 1).
  { rewrite <- (length_map link_ID), I2, length_map, length_seq. reflexivity. }
  split.
  - rewrite map_app, length_app, L1, L2, seq_app, map_app, I1, I2. f_equal.
    apply map_seq_ext. intros j Hj. f_equal. f_equal. lia.
  - rewrite map_app. rewrite <- L1 at 1. rewrite <- L2. f_equal.
    + clear - E2. revert d1 E2. generalize (seq 0 (length steps - 1)).
      intros l. induction l as [|i l IH]; intros d1 E2; simpl in *.
      * injection E2 as <-. reflexivity.
      * destruct (index steps i) as [s|]; [|discriminate]. simpl in E2.
        destruct (Draft.make_step_links steps l) as [d|]; [|discriminate].
        injection E2 as <-. simpl. f_equal. apply IH. reflexivity.
    + clear - E3. revert d2 E3. generalize (seq 1 (length steps - 1)).
      intros l. induction l as [|i l IH]; intros d2 E3; simpl in *.
      * injection E3 as <-. reflexivity.
      * destruct (index steps i) as [s|]; [|discriminate]. simpl in E3.
        destruct (Draft.make_transition_links steps l) as [d|]; [|discriminate].
        injection E3 as <-. simpl. f_equal. apply IH. reflexivity.
Qed.

(** ** The optimizer *)

Section OptimizerFacts.

Import Optimizer.

Variable resource_costs : gmap string CostData.

(** How often the resource [r] is named by the assignments [l]. *)
Let uses (r : string) (l : list Assignment) : nat :=
  length (List.filter (fun a => String.eqb (resource_name (a_resource a)) r) l).

Lemma add_assignment_usage (id : Z) (l : list Assignment) (st : CostState)
    (r : string) :
  resource_usage (fold_left (add_assignment resource_costs id) l st) !! r
  = match resource_costs !! r with
    | None => resource_usage st !! r
    | Some _ =>
        match resource_usage st !! r with
        | Some m => Some (m + uses r l)
        | None => if Nat.eqb (uses r l) 0 then None else Some (uses r l)
        end
    end.
Proof.
  unfold uses. revert st. induction l as [|a l IH]; intros st; simpl.
  - destruct (resource_costs !! r); [|reflexivity].
    destruct (resource_usage st !! r); [f_equal; lia|reflexivity].
  - rewrite IH. clear IH. unfold add_assignment.
    destruct (String.eqb_spec (resource_name (a_resource a)) r) as [->|Hne].
    + destruct (resource_costs !! r) as [cd|]; [|reflexivity].
      destruct (resource_usage st !! r) as [m|]; simpl;
        rewrite lookup_insert_eq; f_equal; lia.
    + destruct (resource_costs !! r) as [cd|] eqn:Er.
      * destruct (resource_costs !! resource_name (a_resource a)); simpl;
          [|reflexivity].
        destruct (resource_usage st !! resource_name (a_resource a)); simpl;
          rewrite lookup_insert_ne by exact Hne; reflexivity.
      * destruct (resource_costs !! resource_name (a_resource a)); simpl;
          [|reflexivity].
        destruct (resource_usage st !! resource_name (a_resource a)); simpl;
          rewrite lookup_insert_ne by exact Hne; reflexivity.
Qed.

Lemma add_assignment_warnings (id : Z) (l : list Assignment) (st : CostState) :
  cost_warnings (fold_left (add_assignment resource_costs id) l st)
  = cost_warnings st
    ++ map (fun a => "Warning: Resource " +:+ resource_name (a_resource a)
                       +:+ " in solution " +:+ str_of_Z id +:+ " has no cost data")
           (List.filter
              (fun a => match resource_costs !! resource_name (a_resource a) with
                        | Some _ => false
                        | None => true
                        end) l).
Proof.
  revert st. induction l as [|a l IH]; intros st; simpl.
  - rewrite app_nil_r. reflexivity.
  - rewrite IH. unfold add_assignment.
    destruct (resource_costs !! resource_name (a_resource a)); simpl;
      [reflexivity|]. rewrite <- app_assoc. reflexivity.
Qed.

(** X19.  [calculate_solution_cost] counts, for every resource with cost
    data, the assignments of the solution that name it, and records no
    resource that has no cost data or is named by no assignment; for every
    assignment whose resource has no cost data it prints one warning, in
    the order of the assignments. *)
Theorem resource_usage_counts (weights : Weights) (solution : SolutionRecord)
    (r : string) :
  let result := calculate_solution_cost weights resource_costs solution in
  let assignments := sol_assignments (sr_solution solution) in
  let n := length (List.filter
                     (fun a => String.eqb (resource_name (a_resource a)) r)
                     assignments) in
  res_resource_usage result.1 !! r
  = match resource_costs !! r with
    | Some _ => if Nat.eqb n 0 then None else Some n
    | None => None
    end
  /\ result.2
     = map (fun a => "Warning: Resource " +:+ resource_name (a_resource a)
                       +:+ " in solution "
                       +:+ str_of_Z (sol_solution_id (sr_solution solution))
                       +:+ " has no cost data")
           (List.filter
              (fun a => match resource_costs !! resource_name (a_resource a) with
                        | Some _ => false
                        | None => true
                        end) assignments).
Proof.
  simpl. split.
  - rewrite add_assignment_usage. simpl. rewrite lookup_empty.
    destruct (resource_costs !! r); reflexivity.
  - rewrite add_assignment_warnings. reflexivity.
Qed.

End OptimizerFacts.




